(** * lib/document.py: the document model of MyPaint

    A shallow embedding of the [Document] class of [lib/document.py]:
    frame and resolution bookkeeping, the undo/redo front ends, the
    bounding boxes, the flood-fill bounds, the layer setters and the
    OpenRaster loader.  Python objects are records, mutation is explicit
    state passing, and a raised exception is a result that carries the
    state reached when it was raised. *)

From Stdlib Require Import ZArith QArith List Bool Ascii String Lia.
From stdpp Require Import base gmap strings.
Import ListNotations.

Local Open Scope Z_scope.

(** ** helpers.Rect *)

Module Rect.

(** Modelled from the spec: [helpers.Rect] ([lib/helpers.py] is not
    among the sources).  A rectangle [(x, y, w, h)]; a rectangle is
    empty when its width or its height is zero (the test [save_jpg]
    writes out as [w == 0 or h == 0]), and the default [Rect()] is
    [(0, 0, 0, 0)]. *)
Record t : Type := mk { x : Z; y : Z; w : Z; h : Z }.

(** Modelled from the spec: [Rect()] without arguments. *)
Definition default : t := mk 0 0 0 0.

(** Modelled from the spec: [Rect.empty]. *)
Definition empty (r : t) : bool := (w r =? 0) || (h r =? 0).

(** Modelled from the spec: [Rect.__eq__]; two rectangles are equal when
    their four fields are ("the declared size differs from the
    reconstructed data bbox"). *)
Definition eqb (a b : t) : bool :=
  (x a =? x b) && (y a =? y b) && (w a =? w b) && (h a =? h b).

(** Modelled from the spec: [Rect.expandToIncludePoint], "expanded to
    include the seed point".  An empty rectangle becomes the one-pixel
    rectangle at the point; otherwise each side moves out as far as the
    point needs, one side after the other. *)
Definition expandToIncludePoint (r : t) (px py : Z) : t :=
  if empty r then mk px py 1 1
  else
    let r1 := if px <? x r then mk px (y r) (w r + (x r - px)) (h r) else r in
    let r2 := if py <? y r1 then mk (x r1) py (w r1) (h r1 + (y r1 - py)) else r1 in
    let r3 := if x r2 + w r2 - 1 <? px
              then mk (x r2) (y r2) (w r2 + (px - (x r2 + w r2 - 1))) (h r2)
              else r2 in
    if y r3 + h r3 - 1 <? py
    then mk (x r3) (y r3) (w r3) (h r3 + (py - (y r3 + h r3 - 1)))
    else r3.

(** Modelled from the spec: [Rect.expandToIncludeRect], the union as a
    bounding rectangle.  An empty [other] adds nothing; otherwise the
    two opposite corners of [other] are included. *)
Definition expandToIncludeRect (r other : t) : t :=
  if empty other then r
  else
    expandToIncludePoint
      (expandToIncludePoint r (x other) (y other))
      (x other + w other - 1) (y other + h other - 1).

(** The point [(px, py)] lies inside [r]. *)
Definition contains_point (r : t) (px py : Z) : Prop :=
  x r <= px < x r + w r /\ y r <= py < y r + h r.

End Rect.

(** ** The layer tree, as [Document] sees it *)

(** Python object identity ([is]): every layer object has an identity
    that no assignment to its fields changes. *)
Definition ObjId := nat.

Record LayerProps : Type := mkLayerProps {
  layer_id : ObjId;
  mode : Z;
  opacity : Q;
  visible : bool;
  locked : bool;
  layer_bbox : Rect.t;               (* layer.get_bbox() *)
  layer_full_redraw_bbox : Rect.t;   (* layer.get_full_redraw_bbox() *)
  fillable : bool                    (* layer.get_fillable() *)
}.

(** Modelled from the spec: the layer tree of [lib/layer.py] (not among
    the sources): a tree of layers, groups holding their children. *)
#[warnings="-register-all"]
Inductive Layer : Type :=
| Node (props : LayerProps) (children : list Layer).

Definition props_of (l : Layer) : LayerProps :=
  match l with Node p _ => p end.

Definition children_of (l : Layer) : list Layer :=
  match l with Node _ cs => cs end.

(** [a is b] on layer objects. *)
Definition layer_is (a b : Layer) : bool :=
  Nat.eqb (layer_id (props_of a)) (layer_id (props_of b)).

Module LayerStack.

(** Modelled from the spec: [layer.RootLayerStack], the root stack with
    its selection.  [t] is what [Document._layers] holds. *)
Record t : Type := mk {
  root : Layer;
  current_path : option (list nat)
}.

(** Modelled from the spec: a layer followed by its descendants. *)
Fixpoint descend (l : Layer) : list Layer :=
  match l with
  | Node _ cs => l :: flat_map descend cs
  end.

(** Modelled from the spec: [deepiter()], every descendant of the root,
    the root excluded, in the order of the traversal. *)
Definition deepiter (s : t) : list Layer :=
  flat_map descend (children_of (root s)).

(** Modelled from the spec: lookup by path. *)
Fixpoint deepget (l : Layer) (path : list nat) : option Layer :=
  match path with
  | [] => Some l
  | i :: rest =>
      match nth_error (children_of l) i with
      | Some c => deepget c rest
      | None => None
      end
  end.

(** Modelled from the spec: [current], the layer at the current path,
    the root stack itself when nothing is selected. *)
Definition current (s : t) : Layer :=
  match current_path s with
  | Some p => match deepget (root s) p with Some l => l | None => root s end
  | None => root s
  end.

(** Modelled from the spec: [len(stack)], the number of children of the
    root. *)
Definition len (s : t) : nat := length (children_of (root s)).

End LayerStack.

(** ** Bounding boxes of the document (pure reads of the layer tree) *)

(** [Document.get_bbox] over the traversal. *)
Definition get_bbox_of (layers : list Layer) : Rect.t :=
  fold_left
    (fun res layer => Rect.expandToIncludeRect res (layer_bbox (props_of layer)))
    layers Rect.default.

(** [Document.get_full_redraw_bbox]: the loop body. *)
Definition full_redraw_step (res : Rect.t) (layer : Layer) : Rect.t :=
  let bbox := layer_full_redraw_bbox (props_of layer) in
  if (Rect.w bbox =? 0) && (Rect.h bbox =? 0)   (* infinite *)
  then bbox
  else Rect.expandToIncludeRect res bbox.

Definition get_full_redraw_bbox_of (layers : list Layer) : Rect.t :=
  fold_left full_redraw_step layers Rect.default.

(** ** Exceptions and results *)

(** The exceptions the modelled code raises or lets through.
    [SaveLoadError] keeps the message template (untranslated) and the
    value formatted into it. *)
Inductive Exn : Type :=
| SaveLoadError (template arg : string)
| GError (msg : string)
| IOError (msg : string)
| KeyError (key : string)
| ValueError (arg : string)
| AssertionError
| OtherError (name : string).

(** The outcome of a call: a value, a raised exception, or a loop that
    ran out of fuel. *)
Inductive Result (A : Type) : Type :=
| Ok (a : A)
| Raise (e : Exn)
| OutOfFuel.

Arguments Ok {A} a.
Arguments Raise {A} e.
Arguments OutOfFuel {A}.

(** ** Python numbers *)

(** An argument that is a Python [int] or a finite [float] (a float is
    the rational it denotes). *)
Inductive PyNumber : Type :=
| PyInt (z : Z)
| PyFloat (q : Q).

(** [int(v)]: the identity on an [int], truncation toward zero on a
    [float]. *)
Definition py_int (v : PyNumber) : Z :=
  match v with
  | PyInt z => z
  | PyFloat q => Z.quot (Qnum q) (Z.pos (Qden q))
  end.

(** Truth value of an optional integer ([None] and [0] are false). *)
Definition truthy (v : option Z) : bool :=
  match v with
  | Some z => negb (z =? 0)
  | None => false
  end.

(** ** Commands *)

(** What a command is and what it was built from: the classes of
    [lib/command.py] as a tagged union, each with the arguments
    [Document] passes to its constructor.  A layer argument is a
    reference to the layer object. *)
Inductive Action : Type :=
| AddLayer (path : list Z)
| RemoveLayer
| RenameLayer (name : string)
| SelectLayer (path : list nat)
| TrimLayer
| SetLayerVisibility (visible : bool) (layer : ObjId)
| SetLayerLocked (locked : bool) (layer : ObjId)
| SetLayerOpacity (opacity : Q) (layer : ObjId)
| SetLayerMode (mode : Z) (layer : ObjId)
| FloodFill (x y : Z) (color : Q * Q * Q) (bbox : Rect.t) (tolerance : Q)
            (sample_merged make_new_layer : bool)
| UpdateFrame (frame : list (option Z))
| SetFrameEnabled (enabled : bool)
| Brushwork
| OtherAction (kind : string).

Record Command : Type := mkCommand {
  action : Action;
  automatic_undo : bool
}.

(** The keyword arguments of [update_last_command]. *)
Inductive Fields : Type :=
| F_opacity (opacity : Q)
| F_visible (visible : bool)
| F_locked (locked : bool)
| F_frame (frame : list (option Z)).


Definition is_UpdateFrame (c : Command) : bool :=
  match action c with UpdateFrame _ => true | _ => false end.



(** ** The document state *)

(** The notifications [Document] and its command stack send to their
    observers, in the order sent. *)
Inductive Event : Type :=
| FrameUpdated (old_frame new_frame : Rect.t)
| FrameEnabledChanged (enabled : bool)
| CanvasAreaModified (x y w h : Z)
| HistoryChanged.

(** Everything a command may change: the layers and the metadata. *)
Record Model : Type := mkModel {
  _layers : LayerStack.t;
  _frame : Rect.t;                   (* the list [x, y, w, h] *)
  _frame_enabled : bool;
  _xres : option Z;
  _yres : option Z;
  unsaved_painting_time : Q;
  events : list Event
}.

Module CommandStackState.
(** Both stacks are Python lists: the most recent command is last. *)
Record t : Type := mk {
  undo_stack : list Command;
  redo_stack : list Command
}.
End CommandStackState.

Record Document : Type := mkDocument {
  model : Model;
  command_stack : CommandStackState.t
}.

Definition undo_stack (d : Document) : list Command :=
  CommandStackState.undo_stack (command_stack d).

Definition redo_stack (d : Document) : list Command :=
  CommandStackState.redo_stack (command_stack d).

Definition with_model (m : Model) (d : Document) : Document :=
  mkDocument m (command_stack d).

Definition with_stacks (us rs : list Command) (d : Document) : Document :=
  mkDocument (model d) (CommandStackState.mk us rs).

Definition emit (e : Event) (m : Model) : Model :=
  mkModel (_layers m) (_frame m) (_frame_enabled m) (_xres m) (_yres m)
          (unsaved_painting_time m) (events m ++ [e]).

(** ** The state-and-exception monad of the methods *)

Definition M (A : Type) : Type := Document -> Result A * Document.

Definition ret {A} (a : A) : M A := fun d => (Ok a, d).

Definition raise {A} (e : Exn) : M A := fun d => (Raise e, d).

Definition bind {A B} (c : M A) (k : A -> M B) : M B :=
  fun d =>
    match c d with
    | (Ok a, d1) => k a d1
    | (Raise e, d1) => (Raise e, d1)
    | (OutOfFuel, d1) => (OutOfFuel, d1)
    end.

Definition get : M Document := fun d => (Ok d, d).

Definition modify (f : Document -> Document) : M unit := fun d => (Ok tt, f d).

Definition lift {A} (r : Result A) : M A := fun d => (r, d).

Declare Scope doc_scope.
Delimit Scope doc_scope with doc.
Notation "'let!' x ':=' c 'in' k" := (bind c (fun x => k))
  (at level 10, x name, c at level 100, k at level 200) : doc_scope.
Local Open Scope doc_scope.

(** ** Files and OpenRaster archives *)

(** What [os.path.isfile] and [os.access] see of a path, and the bytes
    behind it. *)
Record FsEntry : Type := mkFsEntry {
  is_file : bool;
  readable : bool;
  content : string
}.

Definition isfile (fs : gmap string FsEntry) (filename : string) : bool :=
  match fs !! filename with
  | Some e => is_file e
  | None => false
  end.

Definition access_R_OK (fs : gmap string FsEntry) (filename : string) : bool :=
  match fs !! filename with
  | Some e => readable e
  | None => false
  end.

(** An [xml.etree.ElementTree] element: tag, attribute dictionary,
    children. *)
#[warnings="-register-all"]
Inductive Element : Type :=
| Elem (tag : string) (attrib : gmap string string) (elems : list Element).

Definition tag_of (e : Element) : string :=
  match e with Elem t _ _ => t end.

Definition attrib_of (e : Element) : gmap string string :=
  match e with Elem _ a _ => a end.

(** [elem.find(tag)]: the first child with that tag, or [None]. *)
Definition find_child (e : Element) (tag : string) : option Element :=
  match e with
  | Elem _ _ cs => List.find (fun c => String.eqb (tag_of c) tag) cs
  end.

(** ** External collaborators *)

(** What [Document] consumes and [lib/document.py] does not define:
    module constants, the behaviour of the command classes, the
    observers of the [flush_updates] event, and the Python and GDK
    libraries behind loading. *)
Class Collaborators : Type := {
  (** [tiledsurface.N], the tile size, a positive number of pixels *)
  N : Z;
  N_positive : 0 < N;
  (** [layer.PASS_THROUGH_MODE] *)
  PASS_THROUGH_MODE : Z;
  (** the [automatic_undo] attribute of each command class *)
  automatic_undo_of : Action -> bool;
  (** [cmd.redo()], [cmd.undo()] and [cmd.update(...)]: a command
      mutates the layer stack and the document metadata, not the
      history that holds it *)
  cmd_redo : Command -> Model -> Model;
  cmd_undo : Command -> Model -> Model;
  cmd_update : Fields -> Command -> Model -> Command * Model;
  (** the combined reaction of the observers attached to the
      [flush_updates] event: pending work is written to the layers and
      pushed as a command, or dropped *)
  flush_observers : Document -> Document;
  (** [int(s)] on a string; [None] stands for [ValueError] *)
  int_of_str : string -> option Z;
  (** [os.path.splitext(filename)[1].lower().replace('.', '')] *)
  normalized_ext : string -> string;
  (** [zipfile.ZipFile(filename)]: the members by name *)
  zip_open : string -> Exn + gmap string string;
  (** [ET.fromstring(xml)] *)
  xml_fromstring : string -> Exn + Element;
  (** [layer_stack.clear()] *)
  layer_stack_clear : Model -> Model;
  (** [layer_stack.load_from_openraster(orazip, elem, ...)] *)
  load_from_openraster :
    gmap string string -> option Element -> Model -> Result unit * Model;
  (** the other [load_*] attributes of [Document], by extension; they
      run the bitmap codecs *)
  other_loader :
    string -> option (gmap string FsEntry -> string -> Document ->
                      Result unit * Document)
}.

(** A command as its constructor leaves it. *)
Definition new_command `{Collaborators} (a : Action) : Command :=
  mkCommand a (automatic_undo_of a).

(** ** command.CommandStack *)

(** [l.pop()] on a non-empty Python list: the last element and the rest. *)
Definition pop_last {A} (l : list A) : option (A * list A) :=
  match rev l with
  | [] => None
  | x :: r => Some (x, rev r)
  end.

Module CommandStack.
Section WithCollaborators.
Context `{Collaborators}.

(** Modelled from the spec: [CommandStack.clear] ([lib/command.py] is
    not among the sources): "drops both stacks without invoking
    revert". *)
Definition clear : M unit := modify (with_stacks [] []).

(** Modelled from the spec: [CommandStack.do]: "applies cmd.apply()
    against current state, pushes onto undo_stack, clears redo_stack.
    Side effect: emits a history changed notification". *)
Definition do_ (cmd : Command) : M unit :=
  fun d =>
    (Ok tt,
     mkDocument (emit HistoryChanged (cmd_redo cmd (model d)))
                (CommandStackState.mk (undo_stack d ++ [cmd]) [])).

(** Modelled from the spec: [CommandStack.undo]: "pops the top of
    undo_stack (if any), calls cmd.revert(), pushes it onto redo_stack,
    returns the command"; on an empty stack "a no-op returning None". *)
Definition undo : M (option Command) :=
  fun d =>
    match pop_last (undo_stack d) with
    | None => (Ok None, d)
    | Some (cmd, rest) =>
        (Ok (Some cmd),
         mkDocument (cmd_undo cmd (model d))
                    (CommandStackState.mk rest (redo_stack d ++ [cmd])))
    end.

(** Modelled from the spec: [CommandStack.redo]: "symmetric, popping
    redo_stack, re-applying, pushing to undo_stack". *)
Definition redo : M (option Command) :=
  fun d =>
    match pop_last (redo_stack d) with
    | None => (Ok None, d)
    | Some (cmd, rest) =>
        (Ok (Some cmd),
         mkDocument (cmd_redo cmd (model d))
                    (CommandStackState.mk (undo_stack d ++ [cmd]) rest))
    end.

(** Modelled from the spec: [CommandStack.get_last_command]: "peek
    without mutation". *)
Definition get_last_command : M (option Command) :=
  fun d => (Ok (last (undo_stack d)), d).

(** Modelled from the spec: [CommandStack.update_last_command]:
    "mutates the most recent undo_stack entry in place; fails (no-op,
    returns falsy) if the stack is empty.  The updated command is not
    re-pushed". *)
Definition update_last_command (kwargs : Fields) : M (option Command) :=
  fun d =>
    match pop_last (undo_stack d) with
    | None => (Ok None, d)
    | Some (cmd, rest) =>
        let '(cmd', m') := cmd_update kwargs cmd (model d) in
        (Ok (Some cmd'),
         mkDocument m' (CommandStackState.mk (rest ++ [cmd']) (redo_stack d)))
    end.

End WithCollaborators.
End CommandStack.

(** ** Document *)

Section DocumentMethods.
Context `{Collaborators}.

Definition DEFAULT_RESOLUTION : Z := 72.

Definition layer_stack (d : Document) : LayerStack.t := _layers (model d).

Definition frame_enabled (d : Document) : bool := _frame_enabled (model d).

(** *** Field assignments *)

Definition set_frame_field (f : Rect.t) (m : Model) : Model :=
  mkModel (_layers m) f (_frame_enabled m) (_xres m) (_yres m)
          (unsaved_painting_time m) (events m).

Definition set_frame_enabled_field (b : bool) (m : Model) : Model :=
  mkModel (_layers m) (_frame m) b (_xres m) (_yres m)
          (unsaved_painting_time m) (events m).

Definition set_res_fields (xres yres : option Z) (m : Model) : Model :=
  mkModel (_layers m) (_frame m) (_frame_enabled m) xres yres
          (unsaved_painting_time m) (events m).

Definition set_unsaved_painting_time (t : Q) (m : Model) : Model :=
  mkModel (_layers m) (_frame m) (_frame_enabled m) (_xres m) (_yres m)
          t (events m).

(** *** Document frame *)

Definition get_resolution (d : Document) : Z :=
  let xres := _xres (model d) in
  let yres := _yres (model d) in
  if truthy xres && truthy yres
  then Z.max 1 (Z.max (default 0 xres) (default 0 yres))
  else DEFAULT_RESOLUTION.

Definition set_resolution (res : option PyNumber) : M unit :=
  let res :=
    match res with
    | Some v => Some (Z.max 1 (py_int v))
    | None => None
    end in
  modify (fun d => with_model (set_res_fields res res (model d)) d).

Definition get_frame (d : Document) : Rect.t := _frame (model d).

(** *** Undo/redo command stack *)

Definition flush_updates : M unit := modify flush_observers.

Fixpoint undo_loop (fuel : nat) : M (option Command) :=
  match fuel with
  | O => lift OutOfFuel
  | S fuel' =>
      let! cmd := CommandStack.undo in
      match cmd with
      | None => ret cmd
      | Some c => if negb (automatic_undo c) then ret cmd else undo_loop fuel'
      end
  end.

(** [undo]: the [while 1] loop runs on [fuel]. *)
Definition undo (fuel : nat) : M (option Command) :=
  let! _ := flush_updates in
  undo_loop fuel.

Fixpoint redo_loop (fuel : nat) : M (option Command) :=
  match fuel with
  | O => lift OutOfFuel
  | S fuel' =>
      let! cmd := CommandStack.redo in
      match cmd with
      | None => ret cmd
      | Some c => if negb (automatic_undo c) then ret cmd else redo_loop fuel'
      end
  end.

Definition redo (fuel : nat) : M (option Command) :=
  let! _ := flush_updates in
  redo_loop fuel.

Definition do_ (cmd : Command) : M unit :=
  let! _ := flush_updates in
  CommandStack.do_ cmd.

Definition update_last_command (kwargs : Fields) : M (option Command) :=
  let! _ := flush_updates in
  CommandStack.update_last_command kwargs.

Definition get_last_command : M (option Command) :=
  let! _ := flush_updates in
  CommandStack.get_last_command.

(** *** Frame updates *)

Definition update_frame (x y width height : option Z)
           (user_initiated : bool) : M unit :=
  let frame := [x; y; width; height] in
  if user_initiated then
    let! cmd := get_last_command in
    if match cmd with Some c => is_UpdateFrame c | None => false end
    then let! _ := update_last_command (F_frame frame) in ret tt
    else do_ (new_command (UpdateFrame frame))
  else
    fun d =>
      let old_frame := _frame (model d) in
      let new_frame :=
        Rect.mk (default (Rect.x old_frame) x) (default (Rect.y old_frame) y)
                (default (Rect.w old_frame) width)
                (default (Rect.h old_frame) height) in
      if negb (Rect.eqb new_frame old_frame)
      then (Ok tt,
            with_model (emit (FrameUpdated old_frame new_frame)
                             (set_frame_field new_frame (model d))) d)
      else (Ok tt, d).

Definition set_frame_enabled (enabled user_initiated : bool) : M unit :=
  fun d =>
    if Bool.eqb (_frame_enabled (model d)) enabled then (Ok tt, d)
    else if user_initiated then do_ (new_command (SetFrameEnabled enabled)) d
    else (Ok tt,
          with_model (emit (FrameEnabledChanged enabled)
                           (set_frame_enabled_field enabled (model d))) d).

(** *** Utility methods *)

Definition get_bbox (d : Document) : Rect.t :=
  get_bbox_of (LayerStack.deepiter (layer_stack d)).

Definition get_full_redraw_bbox (d : Document) : Rect.t :=
  get_full_redraw_bbox_of (LayerStack.deepiter (layer_stack d)).

Definition get_effective_bbox (d : Document) : Rect.t :=
  if frame_enabled d then get_frame d else get_bbox d.

(** *** Other painting/drawing *)

Definition flood_fill (x y : Z) (color : Q * Q * Q) (tolerance : Q)
           (sample_merged make_new_layer : bool) : M unit :=
  fun d =>
    let bbox := get_effective_bbox d in
    let make_new_layer :=
      if negb (fillable (props_of (LayerStack.current (layer_stack d))))
      then true else make_new_layer in
    let bbox :=
      if Rect.empty bbox
      then Rect.mk (N * (x / N)) (N * (y / N)) N N
      else if negb (frame_enabled d)
           then Rect.expandToIncludePoint bbox x y
           else bbox in
    do_ (new_command (FloodFill x y color bbox tolerance
                                sample_merged make_new_layer)) d.

(** *** Layer command frontends *)


Definition set_current_layer_mode (mode : Z) : M unit :=
  fun d =>
    let current := LayerStack.current (layer_stack d) in
    if layer_is current (LayerStack.root (layer_stack d)) then (Ok tt, d)
    else do_ (new_command (SetLayerMode mode (layer_id (props_of current)))) d.

(** *** Saving and loading *)

Definition _unsupported (fs : gmap string FsEntry) (filename : string)
  : M unit :=
  raise (SaveLoadError "Unknown file format extension: %s" filename).

(** [orazip.read(name)] *)
Definition zip_read (orazip : gmap string string) (name : string)
  : Result string :=
  match orazip !! name with
  | Some data => Ok data
  | None => Raise (KeyError name)
  end.

(** [int(elem.attrib.get(key, 0))] *)
Definition attrib_int (elem : Element) (key : string) : Result Z :=
  match attrib_of elem !! key with
  | None => Ok 0
  | Some s =>
      match int_of_str s with
      | Some z => Ok z
      | None => Raise (ValueError s)
      end
  end.

Definition of_sum {A} (r : Exn + A) : Result A :=
  match r with
  | inl e => Raise e
  | inr a => Ok a
  end.

(** The model part of the state, for collaborators that work on it. *)
Definition on_model {A} (f : Model -> Result A * Model) : M A :=
  fun d => let '(r, m) := f (model d) in (r, with_model m d).

Definition load_ora (fs : gmap string FsEntry) (filename : string)
  : M unit :=
  let! orazip :=
    lift (match fs !! filename with
          | Some e => of_sum (zip_open (content e))
          | None => Raise (IOError filename)
          end) in
  let! _ := lift (zip_read orazip "mimetype") in
  let! xml := lift (zip_read orazip "stack.xml") in
  let! image_elem := lift (of_sum (xml_fromstring xml)) in
  let root_stack_elem := find_child image_elem "stack" in
  let! w := lift (attrib_int image_elem "w") in
  let image_width := Z.max 0 w in
  let! h := lift (attrib_int image_elem "h") in
  let image_height := Z.max 0 h in
  (* Resolution: false value, 0 specifically, means unspecified *)
  let! xres := lift (attrib_int image_elem "xres") in
  let image_xres := Z.max 0 xres in
  let! yres := lift (attrib_int image_elem "yres") in
  let image_yres := Z.max 0 yres in
  (* Delegate loading of image data to the layers tree itself *)
  let! _ := modify (fun d => with_model (layer_stack_clear (model d)) d) in
  let! _ := on_model (load_from_openraster orazip root_stack_elem) in
  let! d := get in
  if Nat.eqb (LayerStack.len (layer_stack d)) 0 then raise AssertionError
  else
    (* Resolution information if specified *)
    let! _ :=
      modify (fun d =>
        if negb (image_xres =? 0) && negb (image_yres =? 0)
        then with_model
               (set_res_fields (Some image_xres) (Some image_yres) (model d)) d
        else with_model (set_res_fields None None (model d)) d) in
    (* Set the frame size to that saved in the image. *)
    let! _ := update_frame (Some 0) (Some 0) (Some image_width)
                           (Some image_height) false in
    (* Enable frame if the saved image size is something other than the
       calculated bounding box. *)
    let bbox_c := Rect.mk 0 0 image_width image_height in
    let! d := get in
    let bbox := get_bbox d in
    let frame_enab :=
      negb (Rect.eqb bbox_c bbox || Rect.empty bbox || Rect.empty bbox_c) in
    set_frame_enabled frame_enab false.

(** [getattr(self, 'load_' + ext, self._unsupported)] *)
Definition getattr_load (ext : string)
  : gmap string FsEntry -> string -> M unit :=
  if String.eqb ext "ora" then load_ora
  else match other_loader ext with
       | Some loader => loader
       | None => _unsupported
       end.

Definition load (fs : gmap string FsEntry) (filename : string) : M unit :=
  if negb (isfile fs filename)
  then raise (SaveLoadError "File does not exist: %s" filename)
  else if negb (access_R_OK fs filename)
  then raise (SaveLoadError
                "You do not have the necessary permissions to open file: %s"
                filename)
  else
    let ext := normalized_ext filename in
    let load_ := getattr_load ext in
    fun d =>
      match load_ fs filename d with
      | (Raise (GError e), d1) =>
          (Raise (SaveLoadError "Error while loading: GError %s" e), d1)
      | (Raise (IOError e), d1) =>
          (Raise (SaveLoadError "Error while loading: IOError %s" e), d1)
      | (Ok _, d1) =>
          (let! _ := CommandStack.clear in
           modify (fun d =>
             with_model (set_unsaved_painting_time 0%Q (model d)) d)) d1
      | other => other
      end.

End DocumentMethods.

(** ** The history a call to [undo] or [redo] walks through *)

(** A stack listed top first, split into the automatic commands on top
    of it and what lies below them. *)
Fixpoint span_automatic (top_first : list Command)
  : list Command * list Command :=
  match top_first with
  | [] => ([], [])
  | c :: rest =>
      if automatic_undo c
      then let '(autos, below) := span_automatic rest in (c :: autos, below)
      else ([], c :: rest)
  end.

(** The nearest non-automatic command of a stack (a Python list, top
    last), if there is one. *)
Definition nearest_non_automatic (stack : list Command) : option Command :=
  head (snd (span_automatic (rev stack))).

(** The commands a walk pops, in the order it pops them: the automatic
    ones on top, then the nearest non-automatic one. *)
Definition popped (stack : list Command) : list Command :=
  fst (span_automatic (rev stack)) ++ take 1 (snd (span_automatic (rev stack))).

(** What the walk leaves on the stack. *)
Definition left_below (stack : list Command) : list Command :=
  rev (drop 1 (snd (span_automatic (rev stack)))).

Section Walks.
Context `{Collaborators}.

Definition revert_all (cmds : list Command) (m : Model) : Model :=
  fold_left (fun m c => cmd_undo c m) cmds m.

Definition reapply_all (cmds : list Command) (m : Model) : Model :=
  fold_left (fun m c => cmd_redo c m) cmds m.

End Walks.

(** ** A concrete set of collaborators, to run the model on examples *)

Module Sample.

Fixpoint update_layer (id : ObjId) (f : LayerProps -> LayerProps)
         (l : Layer) : Layer :=
  match l with
  | Node p cs =>
      Node (if Nat.eqb (layer_id p) id then f p else p)
           (map (update_layer id f) cs)
  end.

Definition with_opacity (o : Q) (p : LayerProps) : LayerProps :=
  mkLayerProps (layer_id p) (mode p) o (visible p) (locked p)
               (layer_bbox p) (layer_full_redraw_bbox p) (fillable p).

Definition with_mode (md : Z) (p : LayerProps) : LayerProps :=
  mkLayerProps (layer_id p) md (opacity p) (visible p) (locked p)
               (layer_bbox p) (layer_full_redraw_bbox p) (fillable p).

Definition on_layers (f : LayerStack.t -> LayerStack.t) (m : Model) : Model :=
  mkModel (f (_layers m)) (_frame m) (_frame_enabled m) (_xres m) (_yres m)
          (unsaved_painting_time m) (events m).

Definition on_root (f : Layer -> Layer) (s : LayerStack.t) : LayerStack.t :=
  LayerStack.mk (f (LayerStack.root s)) (LayerStack.current_path s).

Definition with_frame_enabled (b : bool) (m : Model) : Model :=
  mkModel (_layers m) (_frame m) b (_xres m) (_yres m)
          (unsaved_painting_time m) (events m).

Definition redo_action (c : Command) (m : Model) : Model :=
  match action c with
  | SetLayerOpacity o l => on_layers (on_root (update_layer l (with_opacity o))) m
  | SetLayerMode md l => on_layers (on_root (update_layer l (with_mode md))) m
  | SelectLayer path =>
      on_layers (fun s => LayerStack.mk (LayerStack.root s) (Some path)) m
  | SetFrameEnabled b => with_frame_enabled b m
  | _ => m
  end.

Definition undo_action (c : Command) (m : Model) : Model :=
  match action c with
  | SetFrameEnabled b => with_frame_enabled (negb b) m
  | _ => m
  end.

Definition update_action (kwargs : Fields) (c : Command) (m : Model)
  : Command * Model :=
  match kwargs, action c with
  | F_opacity o, SetLayerOpacity _ l =>
      let c' := mkCommand (SetLayerOpacity o l) (automatic_undo c) in
      (c', redo_action c' m)
  | _, _ => (c, m)
  end.

(** Decimal digits, with an optional minus sign. *)
Fixpoint digits (s : string) (acc : Z) : option Z :=
  match s with
  | EmptyString => Some acc
  | String c rest =>
      let n := Z.of_nat (Ascii.nat_of_ascii c) in
      if (48 <=? n) && (n <=? 57) then digits rest (10 * acc + (n - 48))
      else None
  end.

Definition int_of_str (s : string) : option Z :=
  match s with
  | EmptyString => None
  | String "-"%char rest =>
      match rest with
      | EmptyString => None
      | _ => option_map Z.opp (digits rest 0)
      end
  | _ => digits s 0
  end.

(** The text after the last dot of the file name. *)
Fixpoint ext_from (s : string) (acc : option string) : string :=
  match s with
  | EmptyString => default "" acc
  | String "."%char rest => ext_from rest (Some "")
  | String "/"%char rest => ext_from rest None
  | String c rest =>
      ext_from rest (option_map (fun e => String.append e (String c "")) acc)
  end.

Definition normalized_ext (filename : string) : string :=
  ext_from filename None.

(** A toy container: the bytes of the file are its [stack.xml]. *)
Definition zip_open (bytes : string) : Exn + gmap string string :=
  match bytes with
  | EmptyString => inl (IOError "not a zip file")
  | _ => inr (list_to_map [("mimetype", "image/openraster");
                           ("stack.xml", bytes)])
  end.

Definition layer_elem (x y w h : string) : Element :=
  Elem "layer" (list_to_map [("x", x); ("y", y); ("w", w); ("h", h)]) [].

Definition image_elem (attrs : list (string * string))
           (layers : list Element) : Element :=
  Elem "image" (list_to_map attrs) [Elem "stack" ∅ layers].

(** A toy parser: the documents it knows, by their text. *)
Definition known_documents : list (string * Element) :=
  [ ("framed",
     image_elem [("w", "100"); ("h", "80"); ("xres", "300"); ("yres", "150")]
                [layer_elem "0" "0" "64" "64"]);
    ("unframed",
     image_elem [("w", "64"); ("h", "64"); ("xres", "300")]
                [layer_elem "0" "0" "64" "64"]);
    ("zero-yres",
     image_elem [("w", "64"); ("h", "64"); ("xres", "300"); ("yres", "0")]
                [layer_elem "0" "0" "64" "64"]) ].

Definition xml_fromstring (xml : string) : Exn + Element :=
  match List.find (fun kv => String.eqb (fst kv) xml) known_documents with
  | Some kv => inr (snd kv)
  | None => inl (OtherError "ParseError")
  end.

Definition attr_or_zero (e : Element) (key : string) : Z :=
  match attrib_of e !! key with
  | Some s => default 0 (int_of_str s)
  | None => 0
  end.

(** One painting layer per [layer] element, with the declared extent
    as its bounding box. *)
Definition layer_of_elem (id : nat) (e : Element) : Layer :=
  let box := Rect.mk (attr_or_zero e "x") (attr_or_zero e "y")
                     (attr_or_zero e "w") (attr_or_zero e "h") in
  Node (mkLayerProps id 0 1%Q true false box box true) [].

Definition layer_stack_clear (m : Model) : Model :=
  on_layers
    (fun s => LayerStack.mk (Node (props_of (LayerStack.root s)) []) None) m.

Definition load_from_openraster (orazip : gmap string string)
           (elem : option Element) (m : Model) : Result unit * Model :=
  match elem with
  | None => (Raise (OtherError "AttributeError"), m)
  | Some (Elem _ _ layers) =>
      (Ok tt,
       on_layers
         (fun s =>
            LayerStack.mk
              (Node (props_of (LayerStack.root s))
                    (imap (fun i e => layer_of_elem (S i) e) layers))
              (Some [0%nat])) m)
  end.

End Sample.

Definition sample_collaborators : Collaborators := {|
  N := 64;
  N_positive := eq_refl;
  PASS_THROUGH_MODE := -1;
  automatic_undo_of :=
    fun a => match a with SelectLayer _ => true | _ => false end;
  cmd_redo := Sample.redo_action;
  cmd_undo := Sample.undo_action;
  cmd_update := Sample.update_action;
  flush_observers := fun d => d;
  int_of_str := Sample.int_of_str;
  normalized_ext := Sample.normalized_ext;
  zip_open := Sample.zip_open;
  xml_fromstring := Sample.xml_fromstring;
  layer_stack_clear := Sample.layer_stack_clear;
  load_from_openraster := Sample.load_from_openraster;
  other_loader := fun _ => None
|}.

(** A painting layer without children. *)
Definition sample_layer (id : ObjId) (md : Z) (box redraw : Rect.t) : Layer :=
  Node (mkLayerProps id md 1%Q true false box redraw true) [].

(** A document with the given top-level layers, selection and history;
    frame disabled, no resolution. *)
Definition sample_document (layers : list Layer) (path : option (list nat))
           (us rs : list Command) : Document :=
  mkDocument
    (mkModel (LayerStack.mk
                (Node (mkLayerProps 0%nat 0 1%Q true false Rect.default
                                    Rect.default false) layers) path)
             Rect.default false None None 0%Q [])
    (CommandStackState.mk us rs).

(** An infinite full-redraw box followed by a finite one. *)
Definition infinite_then_finite : list Layer :=
  [ sample_layer 1%nat 0 Rect.default (Rect.mk 0 0 0 0);
    sample_layer 2%nat 0 (Rect.mk 10 10 5 5) (Rect.mk 10 10 5 5) ].

(** A history: on the undo stack a mode change below two automatic
    layer selections, on the redo stack an opacity change below one. *)
Definition sample_history : Document :=
  let cmd := @new_command sample_collaborators in
  sample_document
    [sample_layer 1%nat 0 Rect.default Rect.default]
    (Some [0%nat])
    [cmd (SetLayerMode 2 1%nat); cmd (SelectLayer [0%nat]);
     cmd (SelectLayer [0%nat])]
    [cmd (SetLayerOpacity (1 # 2) 1%nat); cmd (SelectLayer [0%nat])].

(** A fresh document: one layer, selected, empty history. *)
Definition sample_fresh : Document :=
  sample_document [sample_layer 1%nat 0 Rect.default Rect.default]
                  (Some [0%nat]) [] [].

(** The [image] element of the [stack.xml] of the container at a path,
    when the container opens and the manifest parses. *)
Definition stack_xml `{Collaborators} (fs : gmap string FsEntry)
           (filename : string) : option Element :=
  match fs !! filename with
  | Some entry =>
      match zip_open (content entry) with
      | inr orazip =>
          match orazip !! "stack.xml" with
          | Some xml =>
              match xml_fromstring xml with
              | inr image => Some image
              | inl _ => None
              end
          | None => None
          end
      | inl _ => None
      end
  | None => None
  end.

(** A file system with the three containers the sample parser knows. *)
Definition sample_fs : gmap string FsEntry :=
  list_to_map [("framed.ora", mkFsEntry true true "framed");
               ("unframed.ora", mkFsEntry true true "unframed");
               ("zero-yres.ora", mkFsEntry true true "zero-yres")].


(** Two layers that differ in nothing but their identity. *)
Definition sample_twins : Document :=
  sample_document
    [sample_layer 1%nat 0 Rect.default Rect.default;
     sample_layer 2%nat 0 Rect.default Rect.default]
    (Some [0%nat]) [] [].

(** The selection moved to another path, outside the history. *)
Definition select_path (path : list nat) (m : Model) : Model :=
  mkModel (LayerStack.mk (LayerStack.root (_layers m)) (Some path))
          (_frame m) (_frame_enabled m) (_xres m) (_yres m)
          (unsaved_painting_time m) (events m).

(** ** More of Document: frame, layer, refresh and reset methods *)



(** Truth value of a layer path: [None] and the empty tuple are false. *)
Definition path_truthy (path : option (list nat)) : bool :=
  match path with
  | Some (_ :: _) => true
  | _ => false
  end.

(** What the methods below consume besides [Collaborators]. *)
Class MoreCollaborators : Type := {
  (** [layer_stack.set_symmetry_state(active, center_x)] *)
  set_symmetry_state : bool -> option Z -> Model -> Model;
  (** [layer_stack.get_merge_down_target(path)] *)
  get_merge_down_target : LayerStack.t -> list nat -> option (list nat);
  (** [str(n)] on an integer *)
  str_of_int : Z -> string
}.

(** The default of the [lightweight_settings] argument of
    [brushsettings_changed_cb]. *)
Definition lightweight_settings : gset string :=
  list_to_set ["radius_logarithmic"; "color_h"; "color_s"; "color_v";
               "opaque"; "hardness"; "slow_tracking";
               "slow_tracking_per_dab"].

(** Class constant of [Document]. *)
Definition CREATE_PAINTING_LAYER_IF_EMPTY : bool := true.

Section MoreDocumentMethods.
Context `{Collaborators} `{MoreCollaborators}.

(** *** Document frame *)

Definition set_frame (frame : Rect.t) (user_initiated : bool) : M unit :=
  update_frame (Some (Rect.x frame)) (Some (Rect.y frame))
               (Some (Rect.w frame)) (Some (Rect.h frame)) user_initiated.

Definition set_frame_to_current_layer (user_initiated : bool) : M unit :=
  fun d =>
    let current := LayerStack.current (layer_stack d) in
    set_frame (layer_bbox (props_of current)) user_initiated d.

Definition set_frame_to_document (user_initiated : bool) : M unit :=
  fun d => set_frame (get_bbox d) user_initiated d.

Definition trim_current_layer : M unit :=
  fun d =>
    if negb (_frame_enabled (model d)) then (Ok tt, d)
    else do_ (new_command TrimLayer) d.

(** *** Graphical refresh *)

(** The [canvas_area_modified] event. *)
Definition canvas_area_modified (x y w h : Z) : M unit :=
  modify (fun d => with_model (emit (CanvasAreaModified x y w h) (model d)) d).

Definition _canvas_modified_cb (x y w h : Z) : M unit :=
  canvas_area_modified x y w h.

Definition invalidate_all : M unit := canvas_area_modified 0 0 0 0.

(** *** Misc actions *)

Definition brushsettings_changed_cb (settings : gset string) : M unit :=
  if decide (settings ∖ lightweight_settings = ∅) then ret tt
  else flush_updates.

Definition add_layer (path : list Z) : M unit :=
  do_ (new_command (AddLayer path)).

(** [clear], for a painting-only document, which has no working
    directory to remove or create. *)
Definition clear : M unit :=
  let! _ := flush_updates in
  let! _ := modify (fun d => with_model
                               (set_symmetry_state false None (model d)) d) in
  let! d0 := get in
  let prev_area := get_full_redraw_bbox d0 in
  let! _ := CommandStack.clear in
  let! _ := modify (fun d => with_model (layer_stack_clear (model d)) d) in
  let! _ :=
    if CREATE_PAINTING_LAYER_IF_EMPTY
    then
      let! _ := add_layer [-1] in
      let! _ := modify (fun d => with_model (select_path [0%nat] (model d)) d) in
      CommandStack.clear
    else
      modify (fun d =>
        with_model
          (mkModel (LayerStack.mk (LayerStack.root (_layers (model d))) None)
                   (_frame (model d)) (_frame_enabled (model d))
                   (_xres (model d)) (_yres (model d))
                   (unsaved_painting_time (model d)) (events (model d))) d) in
  let! _ := modify (fun d =>
                      with_model (set_unsaved_painting_time 0%Q (model d)) d) in
  let! _ := set_frame (Rect.mk 0 0 0 0) false in
  let! _ := set_frame_enabled false false in
  let! _ := modify (fun d => with_model (set_res_fields None None (model d)) d) in
  canvas_area_modified (Rect.x prev_area) (Rect.y prev_area)
                       (Rect.w prev_area) (Rect.h prev_area).

(** *** Layer stack commands *)

Definition remove_current_layer : M unit :=
  fun d =>
    if negb (path_truthy (LayerStack.current_path (layer_stack d)))
    then (Ok tt, d)
    else do_ (new_command RemoveLayer) d.

Definition rename_current_layer (name : string) : M unit :=
  fun d =>
    if negb (path_truthy (LayerStack.current_path (layer_stack d)))
    then (Ok tt, d)
    else do_ (new_command (RenameLayer name)) d.

Definition merge_current_layer_down : M bool :=
  fun d =>
    let rootstack := layer_stack d in
    match LayerStack.current_path rootstack with
    | None => (Ok false, d)
    | Some cur_path =>
        match get_merge_down_target rootstack cur_path with
        | None => (Ok false, d)
        | Some _ =>
            (let! _ := do_ (new_command (OtherAction "MergeLayerDown")) in
             ret true) d
        end
    end.

Definition merge_visible_layers : M unit :=
  do_ (new_command (OtherAction "MergeVisibleLayers")).



(** *** Saving: the attributes of the [image] element *)

(** The attributes [save_ora] sets on the root element of [stack.xml]:
    the size of the effective bounding box, the resolution when both
    fields are set and non-zero, and the version. *)
Definition save_ora_image_attrib (d : Document) : gmap string string :=
  let effective_bbox := get_effective_bbox d in
  let attrib : gmap string string :=
    <["h" := str_of_int (Rect.h effective_bbox)]>
      (<["w" := str_of_int (Rect.w effective_bbox)]> ∅) in
  let attrib :=
    if truthy (_xres (model d)) && truthy (_yres (model d))
    then <["yres" := str_of_int (default 0 (_yres (model d)))]>
           (<["xres" := str_of_int (default 0 (_xres (model d)))]> attrib)
    else attrib in
  <["version" := "0.0.4-pre.1"]> attrib.

End MoreDocumentMethods.

(** ** Rectangles that cover one another *)

(** A rectangle of positive width and height. *)
Definition positive_rect (r : Rect.t) : Prop := 0 < Rect.w r /\ 0 < Rect.h r.

(** Every pixel of [b] is a pixel of [a]. *)
Definition covers (a b : Rect.t) : Prop :=
  Rect.x a <= Rect.x b /\ Rect.y a <= Rect.y b
  /\ Rect.x b + Rect.w b <= Rect.x a + Rect.w a
  /\ Rect.y b + Rect.h b <= Rect.y a + Rect.h a.

(** The history as one line of time: the undo stack followed by the
    redo stack, most recently undone first. *)
Definition timeline (d : Document) : list Command :=
  undo_stack d ++ rev (redo_stack d).

(** ** More samples *)

Module MoreSample.

Fixpoint digits_of (fuel : nat) (n : Z) (acc : string) : string :=
  match fuel with
  | O => acc
  | S fuel' =>
      let acc' :=
        String (Ascii.ascii_of_nat (48 + Z.to_nat (n mod 10))) acc in
      if n / 10 =? 0 then acc' else digits_of fuel' (n / 10) acc'
  end.

(** Decimal digits of an integer of up to forty digits. *)
Definition str_of_int (z : Z) : string :=
  if z <? 0 then String "-"%char (digits_of 40 (- z) "")
  else digits_of 40 z "".

(** The layer below in the same stack, if there is one. *)
Definition get_merge_down_target (s : LayerStack.t) (path : list nat)
  : option (list nat) :=
  match path with
  | [i] =>
      if Nat.ltb (S i) (LayerStack.len s) then Some [S i] else None
  | _ => None
  end.

End MoreSample.

Definition sample_more_collaborators : MoreCollaborators := {|
  set_symmetry_state := fun _ _ m => m;
  get_merge_down_target := MoreSample.get_merge_down_target;
  str_of_int := MoreSample.str_of_int
|}.

(** A framed document: one 64 by 64 layer, the frame enabled at
    [(10, 10, 100, 80)], resolution 300 by 150. *)
Definition sample_framed : Document :=
  mkDocument
    (mkModel (LayerStack.mk
                (Node (mkLayerProps 0%nat 0 1%Q true false Rect.default
                                    Rect.default false)
                      [sample_layer 1%nat 0 (Rect.mk 0 0 64 64)
                                    (Rect.mk 0 0 64 64)])
                (Some [0%nat]))
             (Rect.mk 10 10 100 80) true (Some 300) (Some 150) (5 # 2) [])
    (CommandStackState.mk [] []).

(** Two painted layers, nothing selected, frame disabled. *)
Definition sample_painted : Document :=
  sample_document
    [sample_layer 1%nat 0 (Rect.mk 0 0 64 64) (Rect.mk 0 0 64 64);
     sample_layer 2%nat 0 (Rect.mk 100 (-20) 30 40) (Rect.mk 100 (-20) 30 40)]
    None [] [].

(** ** An observer with a pending stroke *)

(** The reaction of a stroke recorder to [flush_updates], as the
    docstring of that event expects of its observers ("writing pending
    changes to the layers stack, and pushing an appropriate command onto
    the command stack"): a stroke that has been rendered (the last
    notification is a redraw of its area) but not yet committed is
    pushed as a [Brushwork] command; with nothing pending the document
    is left alone.  Once the command is pushed nothing is pending any
    more, so a second flush changes nothing. *)
Definition commit_pending_stroke (d : Document) : Document :=
  match last (events (model d)) with
  | Some (CanvasAreaModified _ _ _ _) =>
      snd (@CommandStack.do_ sample_collaborators (mkCommand Brushwork false) d)
  | _ => d
  end.

(** The sample collaborators, with that observer attached. *)
Definition stroke_collaborators : Collaborators := {|
  N := 64;
  N_positive := eq_refl;
  PASS_THROUGH_MODE := -1;
  automatic_undo_of :=
    fun a => match a with SelectLayer _ => true | _ => false end;
  cmd_redo := Sample.redo_action;
  cmd_undo := Sample.undo_action;
  cmd_update := Sample.update_action;
  flush_observers := commit_pending_stroke;
  int_of_str := Sample.int_of_str;
  normalized_ext := Sample.normalized_ext;
  zip_open := Sample.zip_open;
  xml_fromstring := Sample.xml_fromstring;
  layer_stack_clear := Sample.layer_stack_clear;
  load_from_openraster := Sample.load_from_openraster;
  other_loader := fun _ => None
|}.

(** A fresh document, both history stacks empty, on which a stroke has
    just been rendered and is still pending. *)
Definition sample_stroke_pending : Document :=
  mkDocument
    (mkModel (LayerStack.mk
                (Node (mkLayerProps 0%nat 0 1%Q true false Rect.default
                                    Rect.default false)
                      [sample_layer 1%nat 0 (Rect.mk 0 0 64 64)
                                    (Rect.mk 0 0 64 64)])
                (Some [0%nat]))
             Rect.default false None None (3 # 1)
             [CanvasAreaModified 0 0 64 64])
    (CommandStackState.mk [] []).

(** ** Commands that add layers *)

(** What redoing an [AddLayer] command does to the layer tree: a blank
    painting layer, under an id not in use at the top level, becomes the
    last child of the root. *)
Definition add_blank_layer (m : Model) : Model :=
  Sample.on_layers
    (Sample.on_root
       (fun r =>
          Node (props_of r)
               (children_of r
                ++ [sample_layer
                      (S (layer_id (props_of r)
                          + list_sum (map (fun l => layer_id (props_of l))
                                          (children_of r))))
                      0 Rect.default Rect.default])))
    m.

(** The sample collaborators, with commands that add layers. *)
Definition layering_collaborators : Collaborators := {|
  N := 64;
  N_positive := eq_refl;
  PASS_THROUGH_MODE := -1;
  automatic_undo_of :=
    fun a => match a with SelectLayer _ => true | _ => false end;
  cmd_redo :=
    fun c m => match action c with
               | AddLayer _ => add_blank_layer m
               | _ => Sample.redo_action c m
               end;
  cmd_undo := Sample.undo_action;
  cmd_update := Sample.update_action;
  flush_observers := fun d => d;
  int_of_str := Sample.int_of_str;
  normalized_ext := Sample.normalized_ext;
  zip_open := Sample.zip_open;
  xml_fromstring := Sample.xml_fromstring;
  layer_stack_clear := Sample.layer_stack_clear;
  load_from_openraster := Sample.load_from_openraster;
  other_loader := fun _ => None
|}.

(* ================================================================== *)
(** * Properties *)
(* ================================================================== *)

(** ** Lists as Python stacks *)

Lemma pop_last_nil {A} : pop_last (@nil A) = None.
Proof. reflexivity. Qed.

Lemma pop_last_snoc {A} (l : list A) (x : A) : pop_last (l ++ [x]) = Some (x, l).
Proof.
  unfold pop_last. rewrite rev_app_distr. simpl. now rewrite rev_involutive.
Qed.

Lemma pop_last_rev_cons {A} (x : A) (top_first : list A) :
  pop_last (rev (x :: top_first)) = Some (x, rev top_first).
Proof. simpl. apply pop_last_snoc. Qed.

(** ** The full-redraw bounding box *)

Ltac rect_cases :=
  repeat (match goal with
          | |- context [Z.ltb ?a ?b] => destruct (Z.ltb_spec a b)
          | |- context [Z.eqb ?a ?b] => destruct (Z.eqb_spec a b)
          end; cbn in *; try lia).

(** When the last layer of the traversal is infinite, its box is the
    result. *)
Lemma full_redraw_infinite_last (layers : list Layer) (l : Layer) :
  Rect.w (layer_full_redraw_bbox (props_of l)) = 0 ->
  Rect.h (layer_full_redraw_bbox (props_of l)) = 0 ->
  get_full_redraw_bbox_of (layers ++ [l]) = layer_full_redraw_bbox (props_of l).
Proof.
  intros Hw Hh. unfold get_full_redraw_bbox_of.
  rewrite fold_left_app. simpl. unfold full_redraw_step.
  now rewrite Hw, Hh.
Qed.

(** Expanding an empty rectangle by a non-empty one gives the latter
    when its sides are positive. *)
Lemma expand_empty_by_rect (r other : Rect.t) :
  Rect.empty r = true -> 0 < Rect.w other -> 0 < Rect.h other ->
  Rect.expandToIncludeRect r other = other.
Proof.
  intros He Hw Hh. destruct other as [ox oy ow oh]. cbn in Hw, Hh.
  unfold Rect.expandToIncludeRect.
  unfold Rect.expandToIncludePoint at 2. rewrite He.
  unfold Rect.expandToIncludePoint, Rect.empty. cbn.
  rect_cases; f_equal; lia.
Qed.

(** An infinite layer followed by a layer with a box of positive size:
    the result is the box of the second layer. *)
Lemma full_redraw_infinite_then_finite (l1 l2 : Layer) :
  layer_full_redraw_bbox (props_of l1) = Rect.mk 0 0 0 0 ->
  0 < Rect.w (layer_full_redraw_bbox (props_of l2)) ->
  0 < Rect.h (layer_full_redraw_bbox (props_of l2)) ->
  get_full_redraw_bbox_of [l1; l2] = layer_full_redraw_bbox (props_of l2).
Proof.
  intros H1 Hw Hh. unfold get_full_redraw_bbox_of. cbn [fold_left].
  unfold full_redraw_step at 2. rewrite H1. cbn.
  unfold full_redraw_step.
  destruct (Z.eqb_spec (Rect.w (layer_full_redraw_bbox (props_of l2))) 0);
    [lia|]. cbn.
  apply expand_empty_by_rect; auto.
Qed.

(** C2, as the code has it: an infinite layer that is not the last one
    of the traversal is forgotten.  With a layer whose full-redraw box
    is the infinite [(0,0,0,0)] followed by a layer whose box is
    [(10,10,5,5)], [get_full_redraw_bbox] returns [(10,10,5,5)] and not
    the sentinel; with the same two layers in the other order it returns
    the sentinel. *)
Theorem full_redraw_bbox_forgets_earlier_infinite_layer :
  get_full_redraw_bbox (sample_document infinite_then_finite None [] [])
    = Rect.mk 10 10 5 5
  /\ get_full_redraw_bbox (sample_document infinite_then_finite None [] [])
       <> Rect.mk 0 0 0 0
  /\ get_full_redraw_bbox
       (sample_document (rev infinite_then_finite) None [] [])
       = Rect.mk 0 0 0 0.
Proof.
  repeat split; try reflexivity. discriminate.
Qed.

(** ** Walking the history *)

Section WalkProperties.
Context `{Collaborators}.

Lemma span_automatic_all_automatic (top_first : list Command) :
  Forall (fun c => automatic_undo c = true) (fst (span_automatic top_first)).
Proof.
  induction top_first as [|c rest IH]; simpl; [constructor|].
  destruct (automatic_undo c) eqn:E; [|constructor].
  destruct (span_automatic rest) as [autos below]. simpl in *.
  constructor; assumption.
Qed.

Lemma span_automatic_head (top_first : list Command) :
  head (snd (span_automatic top_first))
  = List.find (fun c => negb (automatic_undo c)) top_first.
Proof.
  induction top_first as [|c rest IH]; simpl; [reflexivity|].
  destruct (automatic_undo c) eqn:E; simpl; [|reflexivity].
  destruct (span_automatic rest) as [autos below]. exact IH.
Qed.

Lemma span_automatic_app (top_first : list Command) :
  fst (span_automatic top_first) ++ snd (span_automatic top_first) = top_first.
Proof.
  induction top_first as [|c rest IH]; simpl; [reflexivity|].
  destruct (automatic_undo c) eqn:E; simpl; [|reflexivity].
  destruct (span_automatic rest) as [autos below]. simpl in *.
  now rewrite IH.
Qed.

Lemma nearest_non_automatic_find (stack : list Command) :
  nearest_non_automatic stack
  = List.find (fun c => negb (automatic_undo c)) (rev stack).
Proof. apply span_automatic_head. Qed.

Lemma nearest_non_automatic_flag (stack : list Command) (c : Command) :
  nearest_non_automatic stack = Some c -> automatic_undo c = false.
Proof.
  rewrite nearest_non_automatic_find. intros Hf.
  apply find_some in Hf. destruct Hf as [_ Hf].
  now apply negb_true_iff in Hf.
Qed.

(** The loop of [undo], on a stack given top first. *)
Lemma undo_loop_walk (top_first : list Command) :
  forall (fuel : nat) (m : Model) (rs : list Command),
    (length top_first < fuel)%nat ->
    undo_loop fuel (mkDocument m (CommandStackState.mk (rev top_first) rs))
    = (Ok (head (snd (span_automatic top_first))),
       mkDocument
         (revert_all (fst (span_automatic top_first)
                      ++ take 1 (snd (span_automatic top_first))) m)
         (CommandStackState.mk
            (rev (drop 1 (snd (span_automatic top_first))))
            (rs ++ fst (span_automatic top_first)
                ++ take 1 (snd (span_automatic top_first))))).
Proof.
  induction top_first as [|c rest IH]; intros fuel m rs Hfuel;
    (destruct fuel as [|fuel]; [simpl in Hfuel; lia|]).
  - cbn. now rewrite app_nil_r.
  - cbn [undo_loop]. unfold bind at 1. unfold CommandStack.undo, undo_stack, redo_stack.
    cbn [command_stack CommandStackState.undo_stack
         CommandStackState.redo_stack model].
    rewrite pop_last_rev_cons.
    cbn [span_automatic].
    destruct (automatic_undo c) eqn:E; cbn [negb].
    + rewrite IH by (simpl in Hfuel; lia).
      destruct (span_automatic rest) as [autos below]. cbn.
      now rewrite <- app_assoc.
    + cbn. now rewrite drop_0.
Qed.

(** The loop of [redo], likewise. *)
Lemma redo_loop_walk (top_first : list Command) :
  forall (fuel : nat) (m : Model) (us : list Command),
    (length top_first < fuel)%nat ->
    redo_loop fuel (mkDocument m (CommandStackState.mk us (rev top_first)))
    = (Ok (head (snd (span_automatic top_first))),
       mkDocument
         (reapply_all (fst (span_automatic top_first)
                       ++ take 1 (snd (span_automatic top_first))) m)
         (CommandStackState.mk
            (us ++ fst (span_automatic top_first)
                ++ take 1 (snd (span_automatic top_first)))
            (rev (drop 1 (snd (span_automatic top_first)))))).
Proof.
  induction top_first as [|c rest IH]; intros fuel m us Hfuel;
    (destruct fuel as [|fuel]; [simpl in Hfuel; lia|]).
  - cbn. now rewrite app_nil_r.
  - cbn [redo_loop]. unfold bind at 1. unfold CommandStack.redo, undo_stack, redo_stack.
    cbn [command_stack CommandStackState.undo_stack
         CommandStackState.redo_stack model].
    rewrite pop_last_rev_cons.
    cbn [span_automatic].
    destruct (automatic_undo c) eqn:E; cbn [negb].
    + rewrite IH by (simpl in Hfuel; lia).
      destruct (span_automatic rest) as [autos below]. cbn.
      now rewrite <- app_assoc.
    + cbn. now rewrite drop_0.
Qed.

End WalkProperties.

(** ** Undo and redo *)

Lemma walk_partition (stack : list Command) :
  left_below stack ++ rev (popped stack) = stack.
Proof.
  unfold left_below, popped.
  rewrite <- rev_app_distr, <- app_assoc, take_drop, span_automatic_app.
  apply rev_involutive.
Qed.

(** The popped commands are automatic ones followed by the nearest
    non-automatic command, when there is one. *)
Lemma popped_shape (stack : list Command) :
  Forall (fun c => automatic_undo c = true) (fst (span_automatic (rev stack)))
  /\ popped stack
     = fst (span_automatic (rev stack))
       ++ match nearest_non_automatic stack with
          | Some c => [c]
          | None => []
          end.
Proof.
  split; [apply span_automatic_all_automatic|].
  unfold popped, nearest_non_automatic.
  now destruct (snd (span_automatic (rev stack))).
Qed.

(** C1: [undo] pops and reverts commands until the popped command is
    not automatic and returns that command, the nearest non-automatic
    one of the undo stack, or [None] when there is none; [redo] does the
    same on the redo stack, re-applying.  The result of either is never
    a command whose [automatic_undo] is set.  (The stacks are read once
    the pending updates are flushed, as the methods do; [fuel] bounds
    the [while 1] loop and any number above the stack's length is
    enough.) *)
Theorem undo_redo_return_nearest_non_automatic
        `{Collaborators} (fuel : nat) (d : Document) :
  (length (undo_stack (flush_observers d)) < fuel)%nat ->
  (length (redo_stack (flush_observers d)) < fuel)%nat ->
  let d0 := flush_observers d in
  undo fuel d
  = (Ok (nearest_non_automatic (undo_stack d0)),
     mkDocument (revert_all (popped (undo_stack d0)) (model d0))
                (CommandStackState.mk (left_below (undo_stack d0))
                                      (redo_stack d0 ++ popped (undo_stack d0))))
  /\ redo fuel d
     = (Ok (nearest_non_automatic (redo_stack d0)),
        mkDocument (reapply_all (popped (redo_stack d0)) (model d0))
                   (CommandStackState.mk
                      (undo_stack d0 ++ popped (redo_stack d0))
                      (left_below (redo_stack d0))))
  /\ (forall (c : Command) (d' : Document),
        undo fuel d = (Ok (Some c), d') \/ redo fuel d = (Ok (Some c), d') ->
        automatic_undo c = false).
Proof.
  intros Hu Hr d0.
  assert (Eu : undo fuel d
               = undo_loop fuel
                   (mkDocument (model d0)
                      (CommandStackState.mk (rev (rev (undo_stack d0)))
                                            (redo_stack d0)))).
  { unfold undo, bind, flush_updates, modify. rewrite rev_involutive.
    fold d0. now destruct d0 as [m [us rs]]. }
  assert (Er : redo fuel d
               = redo_loop fuel
                   (mkDocument (model d0)
                      (CommandStackState.mk (undo_stack d0)
                                            (rev (rev (redo_stack d0)))))).
  { unfold redo, bind, flush_updates, modify. rewrite rev_involutive.
    fold d0. now destruct d0 as [m [us rs]]. }
  rewrite undo_loop_walk in Eu by (rewrite length_rev; exact Hu).
  rewrite redo_loop_walk in Er by (rewrite length_rev; exact Hr).
  split; [exact Eu|]. split; [exact Er|].
  intros c d' [Hc|Hc]; [rewrite Eu in Hc|rewrite Er in Hc];
    injection Hc as Hc _;
    eapply nearest_non_automatic_flag; exact Hc.
Qed.

Lemma undo_redo_return_nearest_non_automatic_witness :
  (length (undo_stack (@flush_observers sample_collaborators sample_history)) < 4)%nat
  /\ (length (redo_stack (@flush_observers sample_collaborators sample_history)) < 4)%nat
  /\ fst (@undo sample_collaborators 4 sample_history)
     = Ok (Some (mkCommand (SetLayerMode 2 1%nat) false))
  /\ fst (@redo sample_collaborators 4 sample_history)
     = Ok (Some (mkCommand (SetLayerOpacity (1 # 2) 1%nat) false)).
Proof.
  assert (Hu : (length (undo_stack (@flush_observers sample_collaborators
                                      sample_history)) < 4)%nat)
    by (vm_compute; lia).
  assert (Hr : (length (redo_stack (@flush_observers sample_collaborators
                                      sample_history)) < 4)%nat)
    by (vm_compute; lia).
  destruct (@undo_redo_return_nearest_non_automatic
              sample_collaborators 4%nat sample_history Hu Hr) as (Eu & Er & _).
  split; [exact Hu|]. split; [exact Hr|].
  split; [rewrite Eu|rewrite Er]; reflexivity.
Defined.

(** C9, as the code has it: [undo] and [redo] first flush the pending
    updates.  When the undo history is empty once that flush is done,
    [undo] returns [None], raises nothing and leaves the document and
    both stacks as the flush left them; so does [redo] when the redo
    history is empty after the flush.  With nothing pending and an
    empty undo (redo) history the call changes nothing at all. *)
Theorem undo_redo_on_empty_history_are_noops
        `{Collaborators} (fuel : nat) (d : Document) :
  (0 < fuel)%nat ->
  (undo_stack (flush_observers d) = [] ->
   undo fuel d = (Ok None, flush_observers d))
  /\ (redo_stack (flush_observers d) = [] ->
      redo fuel d = (Ok None, flush_observers d))
  /\ (flush_observers d = d -> undo_stack d = [] ->
      undo fuel d = (Ok None, d))
  /\ (flush_observers d = d -> redo_stack d = [] ->
      redo fuel d = (Ok None, d)).
Proof.
  intros Hfuel. destruct fuel as [|fuel]; [lia|].
  assert (Hu : undo_stack (flush_observers d) = [] ->
               undo (S fuel) d = (Ok None, flush_observers d)).
  { intros He. unfold undo, bind, flush_updates, modify. cbn [undo_loop].
    unfold bind, CommandStack.undo. now rewrite He. }
  assert (Hr : redo_stack (flush_observers d) = [] ->
               redo (S fuel) d = (Ok None, flush_observers d)).
  { intros He. unfold redo, bind, flush_updates, modify. cbn [redo_loop].
    unfold bind, CommandStack.redo. now rewrite He. }
  repeat split; try assumption.
  - intros Hf He. rewrite <- Hf at 2. apply Hu. now rewrite Hf.
  - intros Hf He. rewrite <- Hf at 2. apply Hr. now rewrite Hf.
Qed.

Lemma undo_redo_on_empty_history_are_noops_witness :
  (0 < 1)%nat
  /\ undo_stack (@flush_observers sample_collaborators sample_fresh) = []
  /\ redo_stack (@flush_observers sample_collaborators sample_fresh) = []
  /\ @undo sample_collaborators 1 sample_fresh = (Ok None, sample_fresh)
  /\ @redo sample_collaborators 1 sample_fresh = (Ok None, sample_fresh).
Proof.
  destruct (@undo_redo_on_empty_history_are_noops
              sample_collaborators 1%nat sample_fresh (Nat.lt_0_1))
    as (Hu & Hr & _ & _).
  split; [exact Nat.lt_0_1|].
  split; [reflexivity|]. split; [reflexivity|].
  split; [exact (Hu eq_refl)|exact (Hr eq_refl)].
Defined.

(** C9 as stated fails: both history stacks are empty, a stroke is
    pending, and [undo] commits it, reverts it and returns it instead of
    [None]; [redo] returns [None] but leaves the committed stroke on the
    undo stack.  Neither call leaves the document unchanged. *)
Lemma undo_on_empty_history_with_pending_stroke_counterexample :
  let d := sample_stroke_pending in
  let stroke := mkCommand Brushwork false in
  undo_stack d = [] /\ redo_stack d = []
  /\ fst (@undo stroke_collaborators 1 d) = Ok (Some stroke)
  /\ redo_stack (snd (@undo stroke_collaborators 1 d)) = [stroke]
  /\ snd (@undo stroke_collaborators 1 d) <> d
  /\ fst (@redo stroke_collaborators 1 d) = Ok None
  /\ undo_stack (snd (@redo stroke_collaborators 1 d)) = [stroke]
  /\ snd (@redo stroke_collaborators 1 d) <> d.
Proof.
  cbv zeta.
  split; [reflexivity|]. split; [reflexivity|]. split; [reflexivity|].
  split; [reflexivity|]. split; [vm_compute; discriminate|].
  split; [reflexivity|]. split; [reflexivity|]. vm_compute. discriminate.
Qed.

(** ** Resolution *)

(** C10: [get_resolution] is always positive: it is
    [max(1, max(xres, yres))] when both fields are set and non-zero and
    the default 72 otherwise; [set_resolution(r)] with [r] not [None]
    stores [max(1, int(r))] in both fields, a positive number, and
    [get_resolution] then returns it. *)
Theorem resolution_is_positive (d : Document) (r : PyNumber) :
  1 <= get_resolution d
  /\ get_resolution d
     = match _xres (model d), _yres (model d) with
       | Some xres, Some yres =>
           if (xres =? 0) || (yres =? 0) then 72
           else Z.max 1 (Z.max xres yres)
       | _, _ => 72
       end
  /\ set_resolution (Some r) d
     = (Ok tt,
        with_model (set_res_fields (Some (Z.max 1 (py_int r)))
                                   (Some (Z.max 1 (py_int r))) (model d)) d)
  /\ 1 <= Z.max 1 (py_int r)
  /\ get_resolution (snd (set_resolution (Some r) d)) = Z.max 1 (py_int r).
Proof.
  repeat split.
  - unfold get_resolution, DEFAULT_RESOLUTION.
    destruct (truthy (_xres (model d)) && truthy (_yres (model d))); lia.
  - unfold get_resolution, DEFAULT_RESOLUTION, truthy.
    destruct (_xres (model d)) as [xres|], (_yres (model d)) as [yres|];
      cbn; try reflexivity.
    + destruct (xres =? 0), (yres =? 0); reflexivity.
    + destruct (xres =? 0); reflexivity.
  - lia.
  - unfold get_resolution, set_resolution, modify, truthy. cbn.
    destruct (Z.eqb_spec (Z.max 1 (py_int r)) 0); [lia|]. cbn. lia.
Qed.

(** ** Flood fill *)

Lemma do_pushes `{Collaborators} (cmd : Command) (d : Document) :
  do_ cmd d
  = (Ok tt,
     mkDocument (emit HistoryChanged (cmd_redo cmd (model (flush_observers d))))
                (CommandStackState.mk (undo_stack (flush_observers d) ++ [cmd])
                                      [])).
Proof. reflexivity. Qed.

Lemma tile_contains_seed (n x : Z) : 0 < n -> n * (x / n) <= x < n * (x / n) + n.
Proof.
  intros Hn. pose proof (Z.div_mod x n ltac:(lia)) as Hd.
  pose proof (Z.mod_pos_bound x n Hn). lia.
Qed.

(** C5: on a document whose effective bounding box is empty,
    [flood_fill(x, y, ...)] hands to the [FloodFill] command it pushes
    the rectangle [(N*floor(x/N), N*floor(y/N), N, N)]: the one
    tile-aligned N-by-N rectangle that contains the seed point. *)
Theorem flood_fill_on_empty_document_is_bounded_by_seed_tile
        `{Collaborators} (x y : Z) (color : Q * Q * Q) (tolerance : Q)
        (sample_merged make_new_layer : bool) (d : Document) :
  Rect.empty (get_effective_bbox d) = true ->
  let tile := Rect.mk (N * (x / N)) (N * (y / N)) N N in
  let new_layer :=
    if negb (fillable (props_of (LayerStack.current (layer_stack d))))
    then true else make_new_layer in
  let cmd := new_command (FloodFill x y color tile tolerance
                                    sample_merged new_layer) in
  flood_fill x y color tolerance sample_merged make_new_layer d = do_ cmd d
  /\ last (undo_stack
             (snd (flood_fill x y color tolerance sample_merged
                              make_new_layer d))) = Some cmd
  /\ Rect.contains_point tile x y
  /\ Rect.x tile mod N = 0 /\ Rect.y tile mod N = 0.
Proof.
  intros Hempty tile new_layer cmd.
  assert (E : flood_fill x y color tolerance sample_merged make_new_layer d
              = do_ cmd d).
  { unfold flood_fill. now rewrite Hempty. }
  split; [exact E|]. split.
  - rewrite E, do_pushes. cbn. apply last_snoc.
  - pose proof N_positive as HN. split; [|split].
    + split; apply tile_contains_seed; exact HN.
    + cbn. rewrite Z.mul_comm. apply Z.mod_mul. lia.
    + cbn. rewrite Z.mul_comm. apply Z.mod_mul. lia.
Qed.

Lemma flood_fill_on_empty_document_is_bounded_by_seed_tile_witness :
  Rect.empty (get_effective_bbox sample_fresh) = true
  /\ last (undo_stack
             (snd (@flood_fill sample_collaborators 100 (-5) (1%Q, 0%Q, 0%Q)
                               (1 # 10) false false sample_fresh)))
     = Some (mkCommand
               (FloodFill 100 (-5) (1%Q, 0%Q, 0%Q) (Rect.mk 64 (-64) 64 64)
                          (1 # 10) false false) false).
Proof.
  split; [reflexivity|].
  destruct (@flood_fill_on_empty_document_is_bounded_by_seed_tile
              sample_collaborators 100 (-5) (1%Q, 0%Q, 0%Q) (1 # 10)
              false false sample_fresh eq_refl) as (_ & Hlast & _).
  rewrite Hlast. reflexivity.
Defined.

(** ** Loading *)

(** C8: [load(filename)] on a path that is not an existing file raises
    [SaveLoadError] with the file-does-not-exist message and leaves the
    whole document as it was: layers, command stack, frame, resolution
    and unsaved painting time; no loader has run. *)
Theorem load_of_missing_file_raises_and_changes_nothing
        `{Collaborators} (fs : gmap string FsEntry) (filename : string)
        (d : Document) :
  isfile fs filename = false ->
  load fs filename d
  = (Raise (SaveLoadError "File does not exist: %s" filename), d).
Proof.
  intros Hf. unfold load. rewrite Hf. reflexivity.
Qed.

Lemma load_of_missing_file_raises_and_changes_nothing_witness :
  isfile (∅ : gmap string FsEntry) "missing.ora" = false
  /\ @load sample_collaborators ∅ "missing.ora" sample_history
     = (Raise (SaveLoadError "File does not exist: %s" "missing.ora"),
        sample_history).
Proof.
  split; [reflexivity|].
  apply (@load_of_missing_file_raises_and_changes_nothing
           sample_collaborators ∅ "missing.ora" sample_history).
  reflexivity.
Defined.

(** ** Layer setters *)

(** C4, as the code has it: [set_current_layer_mode] never updates in
    place.  With a current layer that is not the root stack, every call
    pushes a new [SetLayerMode] command, whatever the most recent
    command is, so two consecutive mode changes leave two entries on the
    undo stack, also when both are on the same layer. *)
Theorem set_current_layer_mode_never_coalesces
        `{Collaborators} (mode1 mode2 : Z) (d : Document) :
  let current := LayerStack.current (layer_stack d) in
  let cmd1 := new_command (SetLayerMode mode1 (layer_id (props_of current))) in
  let d1 := snd (set_current_layer_mode mode1 d) in
  let current1 := LayerStack.current (layer_stack d1) in
  let cmd2 := new_command (SetLayerMode mode2 (layer_id (props_of current1))) in
  layer_is current (LayerStack.root (layer_stack d)) = false ->
  layer_is current1 (LayerStack.root (layer_stack d1)) = false ->
  flush_observers d1 = d1 ->
  set_current_layer_mode mode1 d = do_ cmd1 d
  /\ undo_stack d1 = undo_stack (flush_observers d) ++ [cmd1]
  /\ undo_stack (snd (set_current_layer_mode mode2 d1))
     = undo_stack (flush_observers d) ++ [cmd1; cmd2].
Proof.
  intros current cmd1 d1 current1 cmd2 Hroot Hroot1 Hflush.
  assert (E1 : set_current_layer_mode mode1 d = do_ cmd1 d).
  { unfold set_current_layer_mode. fold current. now rewrite Hroot. }
  assert (Hd1 : undo_stack d1 = undo_stack (flush_observers d) ++ [cmd1]).
  { unfold d1. rewrite E1, do_pushes. reflexivity. }
  split; [exact E1|]. split; [exact Hd1|].
  unfold set_current_layer_mode. fold current1. rewrite Hroot1.
  fold cmd2. rewrite do_pushes. cbn [snd].
  rewrite Hflush. unfold undo_stack at 1. cbn.
  fold (undo_stack d1). rewrite Hd1. now rewrite <- app_assoc.
Qed.

Lemma set_current_layer_mode_never_coalesces_witness :
  let d1 := snd (@set_current_layer_mode sample_collaborators 2 sample_fresh) in
  layer_is (LayerStack.current (layer_stack sample_fresh))
           (LayerStack.root (layer_stack sample_fresh)) = false
  /\ layer_is (LayerStack.current (layer_stack d1))
              (LayerStack.root (layer_stack d1)) = false
  /\ @flush_observers sample_collaborators d1 = d1
  /\ undo_stack (snd (@set_current_layer_mode sample_collaborators 3 d1))
     = [mkCommand (SetLayerMode 2 1%nat) false;
        mkCommand (SetLayerMode 3 1%nat) false].
Proof.
  intros d1.
  destruct (@set_current_layer_mode_never_coalesces
              sample_collaborators 2 3 sample_fresh eq_refl eq_refl eq_refl)
    as (_ & _ & H2).
  split; [reflexivity|]. split; [reflexivity|]. split; [reflexivity|].
  fold d1 in H2. rewrite H2. reflexivity.
Defined.

(** C4 as stated fails: the most recent command is a set-layer-mode
    command on the current layer, and the next mode change on that layer
    leaves two entries on the undo stack, not one. *)
Lemma set_current_layer_mode_coalescing_counterexample :
  let d1 := snd (@set_current_layer_mode sample_collaborators 2 sample_fresh) in
  let d2 := snd (@set_current_layer_mode sample_collaborators 3 d1) in
  last (undo_stack d1) = Some (mkCommand (SetLayerMode 2 1%nat) false)
  /\ layer_id (props_of (LayerStack.current (layer_stack d1))) = 1%nat
  /\ undo_stack d2 = [mkCommand (SetLayerMode 2 1%nat) false;
                      mkCommand (SetLayerMode 3 1%nat) false]
  /\ length (undo_stack d2) <> 1%nat.
Proof.
  cbv zeta. repeat split. vm_compute. discriminate.
Qed.

Lemma update_last_command_in_place
      `{Collaborators} (kwargs : Fields) (d : Document) (rest : list Command)
      (cmd : Command) :
  flush_observers d = d ->
  undo_stack d = rest ++ [cmd] ->
  update_last_command kwargs d
  = (Ok (Some (fst (cmd_update kwargs cmd (model d)))),
     mkDocument (snd (cmd_update kwargs cmd (model d)))
                (CommandStackState.mk
                   (rest ++ [fst (cmd_update kwargs cmd (model d))])
                   (redo_stack d))).
Proof.
  intros Hflush Hstack.
  unfold update_last_command, bind, flush_updates, modify,
    CommandStack.update_last_command.
  rewrite Hflush, Hstack, pop_last_snoc.
  destruct (cmd_update kwargs cmd (model d)) as [cmd' m']. reflexivity.
Qed.






(** ** Loading an OpenRaster container *)

Lemma Rect_eqb_eq (a b : Rect.t) : Rect.eqb a b = true <-> a = b.
Proof.
  destruct a as [ax ay aw ah], b as [bx by_ bw bh]. unfold Rect.eqb. cbn.
  rewrite !andb_true_iff, !Z.eqb_eq. split.
  - intros [[[-> ->] ->] ->]. reflexivity.
  - intros E. injection E as -> -> -> ->. auto.
Qed.

(** A frame update that is not user initiated touches the frame and the
    notifications only. *)
Lemma update_frame_direct
      `{Collaborators} (x y width height : option Z) (d : Document) :
  exists d1,
    update_frame x y width height false d = (Ok tt, d1)
    /\ _layers (model d1) = _layers (model d)
    /\ _xres (model d1) = _xres (model d)
    /\ _yres (model d1) = _yres (model d)
    /\ _frame_enabled (model d1) = _frame_enabled (model d)
    /\ command_stack d1 = command_stack d.
Proof.
  unfold update_frame.
  match goal with |- context [if ?b then _ else _] => destruct b end;
    eexists; split; try reflexivity; cbn; auto.
Qed.

(** Likewise for the frame switch, which ends up as asked. *)
Lemma set_frame_enabled_direct
      `{Collaborators} (enabled : bool) (d : Document) :
  exists d1,
    set_frame_enabled enabled false d = (Ok tt, d1)
    /\ _layers (model d1) = _layers (model d)
    /\ _xres (model d1) = _xres (model d)
    /\ _yres (model d1) = _yres (model d)
    /\ _frame_enabled (model d1) = enabled.
Proof.
  unfold set_frame_enabled.
  destruct (Bool.eqb (_frame_enabled (model d)) enabled) eqn:E.
  - apply eqb_prop in E. eexists; split; [reflexivity|]. auto.
  - eexists; split; [reflexivity|]. cbn. auto.
Qed.

(** What a completed [load_ora] has read and done. *)
Lemma load_ora_completed
      `{Collaborators} (fs : gmap string FsEntry) (filename : string)
      (d d' : Document) :
  load_ora fs filename d = (Ok tt, d') ->
  exists image w h xres yres,
    stack_xml fs filename = Some image
    /\ attrib_int image "w" = Ok w
    /\ attrib_int image "h" = Ok h
    /\ attrib_int image "xres" = Ok xres
    /\ attrib_int image "yres" = Ok yres
    /\ _xres (model d')
       = (if negb (Z.max 0 xres =? 0) && negb (Z.max 0 yres =? 0)
          then Some (Z.max 0 xres) else None)
    /\ _yres (model d')
       = (if negb (Z.max 0 xres =? 0) && negb (Z.max 0 yres =? 0)
          then Some (Z.max 0 yres) else None)
    /\ frame_enabled d'
       = negb (Rect.eqb (Rect.mk 0 0 (Z.max 0 w) (Z.max 0 h)) (get_bbox d')
               || Rect.empty (get_bbox d')
               || Rect.empty (Rect.mk 0 0 (Z.max 0 w) (Z.max 0 h))).
Proof.
  unfold load_ora, stack_xml. intros Hload.
  unfold bind at 1 in Hload. unfold lift at 1 in Hload.
  destruct (fs !! filename) as [entry|]; [|discriminate].
  destruct (zip_open (content entry)) as [e|orazip]; [discriminate|].
  cbn [of_sum] in Hload.
  unfold bind at 1 in Hload. unfold lift at 1, zip_read at 1 in Hload.
  destruct (orazip !! "mimetype") as [mimetype|]; [|discriminate].
  unfold bind at 1 in Hload. unfold lift at 1, zip_read at 1 in Hload.
  destruct (orazip !! "stack.xml") as [xml|]; [|discriminate].
  unfold bind at 1 in Hload. unfold lift at 1 in Hload.
  destruct (xml_fromstring xml) as [e|image]; [discriminate|].
  cbn [of_sum] in Hload.
  unfold bind at 1 in Hload. unfold lift at 1 in Hload.
  destruct (attrib_int image "w") as [w| |] eqn:Ew; try discriminate.
  unfold bind at 1 in Hload. unfold lift at 1 in Hload.
  destruct (attrib_int image "h") as [h| |] eqn:Eh; try discriminate.
  unfold bind at 1 in Hload. unfold lift at 1 in Hload.
  destruct (attrib_int image "xres") as [xres| |] eqn:Exres; try discriminate.
  unfold bind at 1 in Hload. unfold lift at 1 in Hload.
  destruct (attrib_int image "yres") as [yres| |] eqn:Eyres; try discriminate.
  unfold bind at 1 in Hload. unfold modify at 1 in Hload.
  unfold bind at 1 in Hload. unfold on_model at 1 in Hload.
  cbn [model with_model] in Hload.
  destruct (load_from_openraster orazip (find_child image "stack")
                                 (layer_stack_clear (model d)))
    as [[[]| |] m1]; try discriminate.
  unfold bind at 1 in Hload. unfold get at 1 in Hload.
  match type of Hload with
  | context [if ?b then _ else _] => destruct b; [discriminate|]
  end.
  unfold bind at 1 in Hload. unfold modify at 1 in Hload.
  unfold bind at 1 in Hload.
  match type of Hload with
  | context [update_frame ?a ?b ?c ?e false ?s] =>
      destruct (update_frame_direct a b c e s)
        as (d2 & E2 & Hl2 & Hx2 & Hy2 & _ & _)
  end.
  rewrite E2 in Hload.
  unfold bind at 1 in Hload. unfold get at 1 in Hload.
  match type of Hload with
  | set_frame_enabled ?b false ?s = _ =>
      destruct (set_frame_enabled_direct b s)
        as (d3 & E3 & Hl3 & Hx3 & Hy3 & Hen3)
  end.
  rewrite E3 in Hload. injection Hload as <-.
  exists image, w, h, xres, yres.
  split; [reflexivity|].
  split; [exact Ew|]. split; [exact Eh|].
  split; [exact Exres|]. split; [exact Eyres|].
  split; [|split].
  - rewrite Hx3, Hx2.
    destruct (negb (Z.max 0 xres =? 0) && negb (Z.max 0 yres =? 0));
      reflexivity.
  - rewrite Hy3, Hy2.
    destruct (negb (Z.max 0 xres =? 0) && negb (Z.max 0 yres =? 0));
      reflexivity.
  - unfold frame_enabled. rewrite Hen3.
    unfold get_bbox, layer_stack. now rewrite Hl3.
Qed.

(** C6: after a completed [load_ora] the frame is enabled if and only
    if the rectangle the [w]/[h] attributes declare at the origin
    differs from the data bounding box of the loaded layers and neither
    of the two is empty; an empty declared size, an empty data bounding
    box, or equal boxes load with the frame disabled.  (The declared
    rectangle is [(0, 0, max(0, w), max(0, h))], a missing attribute
    counting as 0.) *)
Theorem load_ora_enables_frame_iff_declared_size_differs
        `{Collaborators} (fs : gmap string FsEntry) (filename : string)
        (d d' : Document) :
  load_ora fs filename d = (Ok tt, d') ->
  exists image w h,
    stack_xml fs filename = Some image
    /\ attrib_int image "w" = Ok w
    /\ attrib_int image "h" = Ok h
    /\ let declared := Rect.mk 0 0 (Z.max 0 w) (Z.max 0 h) in
       (frame_enabled d' = true <->
        declared <> get_bbox d'
        /\ Rect.empty declared = false
        /\ Rect.empty (get_bbox d') = false)
       /\ (Rect.empty declared = true
           \/ Rect.empty (get_bbox d') = true
           \/ declared = get_bbox d' ->
           frame_enabled d' = false).
Proof.
  intros Hload.
  destruct (load_ora_completed fs filename d d' Hload)
    as (image & w & h & xres & yres & Hs & Hw & Hh & _ & _ & _ & _ & Hen).
  exists image, w, h. repeat (split; [assumption|]).
  intros declared. fold declared in Hen. rewrite Hen.
  pose proof (Rect_eqb_eq declared (get_bbox d')) as Heq.
  destruct (Rect.eqb declared (get_bbox d')) eqn:Eb;
    destruct (Rect.empty (get_bbox d')) eqn:Ee;
    destruct (Rect.empty declared) eqn:Ec; cbn;
    (split; [split|]);
    try solve [ intros; discriminate
              | intros (Hne & Hc & He); try discriminate;
                exfalso; apply Hne; apply Heq; reflexivity
              | intros _; repeat split; try reflexivity;
                intros E; apply Heq in E; discriminate
              | reflexivity
              | intros [Hc | [He | E]]; try discriminate;
                apply Heq in E; discriminate ].
Qed.

Lemma load_ora_enables_frame_iff_declared_size_differs_witness :
  let d' := snd (@load_ora sample_collaborators sample_fs "framed.ora"
                           sample_fresh) in
  @load_ora sample_collaborators sample_fs "framed.ora" sample_fresh
  = (Ok tt, d')
  /\ exists image w h,
      @stack_xml sample_collaborators sample_fs "framed.ora" = Some image
      /\ @attrib_int sample_collaborators image "w" = Ok w
      /\ @attrib_int sample_collaborators image "h" = Ok h
      /\ let declared := Rect.mk 0 0 (Z.max 0 w) (Z.max 0 h) in
         (frame_enabled d' = true <->
          declared <> get_bbox d'
          /\ Rect.empty declared = false
          /\ Rect.empty (get_bbox d') = false)
         /\ (Rect.empty declared = true
             \/ Rect.empty (get_bbox d') = true
             \/ declared = get_bbox d' ->
             frame_enabled d' = false).
Proof.
  intros d'.
  assert (Hload : @load_ora sample_collaborators sample_fs "framed.ora"
                            sample_fresh = (Ok tt, d'))
    by (vm_compute; reflexivity).
  split; [exact Hload|].
  exact (@load_ora_enables_frame_iff_declared_size_differs
           sample_collaborators sample_fs "framed.ora" sample_fresh d' Hload).
Defined.

(** C7: when the [stack.xml] of the container carries only one of
    [xres]/[yres], or either is zero, a completed [load_ora] leaves both
    resolution fields [None] and [get_resolution] gives the default; a
    field is set after the load only when both attributes are present
    and non-zero, and then both fields hold the declared values. *)
Theorem load_ora_restores_resolution_only_when_both_declared
        `{Collaborators} (fs : gmap string FsEntry) (filename : string)
        (d d' : Document) :
  load_ora fs filename d = (Ok tt, d') ->
  exists image xres yres,
    stack_xml fs filename = Some image
    /\ attrib_int image "xres" = Ok xres
    /\ attrib_int image "yres" = Ok yres
    /\ (attrib_of image !! "xres" = None
        \/ attrib_of image !! "yres" = None
        \/ xres = 0 \/ yres = 0 ->
        _xres (model d') = None
        /\ _yres (model d') = None
        /\ get_resolution d' = DEFAULT_RESOLUTION)
    /\ (_xres (model d') <> None \/ _yres (model d') <> None ->
        is_Some (attrib_of image !! "xres")
        /\ is_Some (attrib_of image !! "yres")
        /\ xres <> 0 /\ yres <> 0
        /\ _xres (model d') = Some xres
        /\ _yres (model d') = Some yres)
    /\ (0 < xres -> 0 < yres ->
        _xres (model d') = Some xres /\ _yres (model d') = Some yres).
Proof.
  intros Hload.
  destruct (load_ora_completed fs filename d d' Hload)
    as (image & w & h & xres & yres & Hs & _ & _ & Hx & Hy & Rx & Ry & _).
  exists image, xres, yres. repeat (split; [assumption|]).
  assert (Habsent_x : attrib_of image !! "xres" = None -> xres = 0).
  { intros E. unfold attrib_int in Hx. rewrite E in Hx. congruence. }
  assert (Habsent_y : attrib_of image !! "yres" = None -> yres = 0).
  { intros E. unfold attrib_int in Hy. rewrite E in Hy. congruence. }
  assert (Hzero : xres = 0 \/ yres = 0 ->
                  _xres (model d') = None /\ _yres (model d') = None).
  { intros Hz. rewrite Rx, Ry.
    destruct (Z.eqb_spec (Z.max 0 xres) 0), (Z.eqb_spec (Z.max 0 yres) 0);
      cbn; auto; lia. }
  assert (Hset : _xres (model d') <> None \/ _yres (model d') <> None ->
                 0 < xres /\ 0 < yres).
  { rewrite Rx, Ry.
    destruct (Z.eqb_spec (Z.max 0 xres) 0), (Z.eqb_spec (Z.max 0 yres) 0);
      cbn; intros [Hn|Hn]; try congruence; lia. }
  assert (Hpos : 0 < xres -> 0 < yres ->
                 _xres (model d') = Some xres /\ _yres (model d') = Some yres).
  { intros Hpx Hpy. rewrite Rx, Ry.
    destruct (Z.eqb_spec (Z.max 0 xres) 0), (Z.eqb_spec (Z.max 0 yres) 0);
      cbn; try lia. split; f_equal; lia. }
  split; [|split].
  - intros Hcase.
    assert (Hz : xres = 0 \/ yres = 0) by (destruct Hcase as [?|[?|[?|?]]]; auto).
    destruct (Hzero Hz) as [Nx Ny]. repeat split; try assumption.
    unfold get_resolution. now rewrite Nx, Ny.
  - intros Hn. destruct (Hset Hn) as [Hpx Hpy].
    destruct (Hpos Hpx Hpy) as [Sx Sy].
    repeat split; try assumption; try lia.
    + destruct (attrib_of image !! "xres") eqn:E; [eauto|].
      specialize (Habsent_x eq_refl). lia.
    + destruct (attrib_of image !! "yres") eqn:E; [eauto|].
      specialize (Habsent_y eq_refl). lia.
  - exact Hpos.
Qed.

Lemma load_ora_restores_resolution_only_when_both_declared_witness :
  let d' := snd (@load_ora sample_collaborators sample_fs "unframed.ora"
                           sample_fresh) in
  @load_ora sample_collaborators sample_fs "unframed.ora" sample_fresh
  = (Ok tt, d')
  /\ exists image xres yres,
      @stack_xml sample_collaborators sample_fs "unframed.ora" = Some image
      /\ @attrib_int sample_collaborators image "xres" = Ok xres
      /\ @attrib_int sample_collaborators image "yres" = Ok yres
      /\ (attrib_of image !! "xres" = None
          \/ attrib_of image !! "yres" = None
          \/ xres = 0 \/ yres = 0 ->
          _xres (model d') = None
          /\ _yres (model d') = None
          /\ get_resolution d' = DEFAULT_RESOLUTION)
      /\ (_xres (model d') <> None \/ _yres (model d') <> None ->
          is_Some (attrib_of image !! "xres")
          /\ is_Some (attrib_of image !! "yres")
          /\ xres <> 0 /\ yres <> 0
          /\ _xres (model d') = Some xres
          /\ _yres (model d') = Some yres)
      /\ (0 < xres -> 0 < yres ->
          _xres (model d') = Some xres /\ _yres (model d') = Some yres).
Proof.
  intros d'.
  assert (Hload : @load_ora sample_collaborators sample_fs "unframed.ora"
                            sample_fresh = (Ok tt, d'))
    by (vm_compute; reflexivity).
  split; [exact Hload|].
  exact (@load_ora_restores_resolution_only_when_both_declared
           sample_collaborators sample_fs "unframed.ora" sample_fresh d' Hload).
Defined.

(** ** The model at work on the sample containers *)

Example load_framed_container :
  let d' := snd (@load sample_collaborators sample_fs "framed.ora"
                       sample_history) in
  frame_enabled d' = true
  /\ get_frame d' = Rect.mk 0 0 100 80
  /\ get_bbox d' = Rect.mk 0 0 64 64
  /\ get_resolution d' = 300
  /\ undo_stack d' = [] /\ redo_stack d' = [].
Proof. vm_compute. repeat split. Qed.

Example load_container_with_xres_only :
  let d' := snd (@load sample_collaborators sample_fs "unframed.ora"
                       sample_history) in
  frame_enabled d' = false
  /\ _xres (model d') = None /\ _yres (model d') = None
  /\ get_resolution d' = 72.
Proof. vm_compute. repeat split. Qed.

Example load_container_with_zero_yres :
  let d' := snd (@load sample_collaborators sample_fs "zero-yres.ora"
                       sample_history) in
  _xres (model d') = None /\ _yres (model d') = None.
Proof. vm_compute. repeat split. Qed.

Example load_unknown_extension :
  fst (@load sample_collaborators
             (<["a.xyz" := mkFsEntry true true "framed"]> sample_fs)
             "a.xyz" sample_history)
  = Raise (SaveLoadError "Unknown file format extension: %s" "a.xyz").
Proof. vm_compute. reflexivity. Qed.

(* ================================================================== *)
(** * Further properties of the document *)
(* ================================================================== *)

(** ** The history as a line of time *)

Lemma undo_equation `{Collaborators} (fuel : nat) (d : Document) :
  (length (undo_stack (flush_observers d)) < fuel)%nat ->
  undo fuel d
  = (Ok (nearest_non_automatic (undo_stack (flush_observers d))),
     mkDocument
       (revert_all (popped (undo_stack (flush_observers d)))
                   (model (flush_observers d)))
       (CommandStackState.mk
          (left_below (undo_stack (flush_observers d)))
          (redo_stack (flush_observers d)
           ++ popped (undo_stack (flush_observers d))))).
Proof.
  intros Hfuel. set (d0 := flush_observers d) in *.
  transitivity
    (undo_loop fuel
       (mkDocument (model d0)
          (CommandStackState.mk (rev (rev (undo_stack d0))) (redo_stack d0)))).
  - unfold undo, bind, flush_updates, modify. rewrite rev_involutive.
    fold d0. now destruct d0 as [m [us rs]].
  - rewrite undo_loop_walk by (rewrite length_rev; exact Hfuel). reflexivity.
Qed.

Lemma redo_equation `{Collaborators} (fuel : nat) (d : Document) :
  (length (redo_stack (flush_observers d)) < fuel)%nat ->
  redo fuel d
  = (Ok (nearest_non_automatic (redo_stack (flush_observers d))),
     mkDocument
       (reapply_all (popped (redo_stack (flush_observers d)))
                    (model (flush_observers d)))
       (CommandStackState.mk
          (undo_stack (flush_observers d)
           ++ popped (redo_stack (flush_observers d)))
          (left_below (redo_stack (flush_observers d))))).
Proof.
  intros Hfuel. set (d0 := flush_observers d) in *.
  transitivity
    (redo_loop fuel
       (mkDocument (model d0)
          (CommandStackState.mk (undo_stack d0) (rev (rev (redo_stack d0)))))).
  - unfold redo, bind, flush_updates, modify. rewrite rev_involutive.
    fold d0. now destruct d0 as [m [us rs]].
  - rewrite redo_loop_walk by (rewrite length_rev; exact Hfuel). reflexivity.
Qed.

(** X1: [undo] and [redo] move commands between the two stacks and
    neither lose nor duplicate one: the undo stack followed by the
    reversed redo stack is the same list before and after the call. *)
Theorem undo_redo_preserve_timeline
        `{Collaborators} (fuel : nat) (d : Document) :
  (length (undo_stack (flush_observers d)) < fuel)%nat ->
  (length (redo_stack (flush_observers d)) < fuel)%nat ->
  timeline (snd (undo fuel d)) = timeline (flush_observers d)
  /\ timeline (snd (redo fuel d)) = timeline (flush_observers d).
Proof.
  intros Hu Hr. rewrite (undo_equation fuel d Hu), (redo_equation fuel d Hr).
  unfold timeline, undo_stack, redo_stack. cbn.
  set (us := CommandStackState.undo_stack (command_stack (flush_observers d))).
  set (rs := CommandStackState.redo_stack (command_stack (flush_observers d))).
  split.
  - rewrite rev_app_distr, app_assoc, walk_partition. reflexivity.
  - rewrite <- app_assoc. f_equal.
    pose proof (f_equal (@rev Command) (walk_partition rs)) as Hrev.
    rewrite rev_app_distr, rev_involutive in Hrev. exact Hrev.
Qed.

Lemma undo_redo_preserve_timeline_witness :
  timeline (snd (@undo sample_collaborators 4 sample_history))
  = timeline sample_history
  /\ timeline (snd (@redo sample_collaborators 4 sample_history))
     = timeline sample_history.
Proof.
  assert (Hu : (length (undo_stack (@flush_observers sample_collaborators
                                      sample_history)) < 4)%nat)
    by (vm_compute; lia).
  assert (Hr : (length (redo_stack (@flush_observers sample_collaborators
                                      sample_history)) < 4)%nat)
    by (vm_compute; lia).
  exact (@undo_redo_preserve_timeline sample_collaborators 4%nat
           sample_history Hu Hr).
Defined.

(** X2: [undo] followed by [redo] (nothing pending in between) gives
    back the command [undo] returned and puts it back on top of the undo
    stack, but the automatic commands that were above it stay undone,
    on the redo stack. *)
Theorem undo_then_redo_leaves_automatic_commands_undone
        `{Collaborators} (fuel : nat) (d : Document) (c : Command) :
  let d0 := flush_observers d in
  let d1 := snd (undo fuel d) in
  let autos := fst (span_automatic (rev (undo_stack d0))) in
  (length (undo_stack d0) < fuel)%nat ->
  nearest_non_automatic (undo_stack d0) = Some c ->
  flush_observers d1 = d1 ->
  fst (undo fuel d) = Ok (Some c)
  /\ redo fuel d1
     = (Ok (Some c),
        mkDocument (cmd_redo c (model d1))
                   (CommandStackState.mk (left_below (undo_stack d0) ++ [c])
                                         (redo_stack d0 ++ autos)))
  /\ undo_stack d0 = (left_below (undo_stack d0) ++ [c]) ++ rev autos
  /\ Forall (fun a => automatic_undo a = true) autos.
Proof.
  intros d0 d1 autos Hfuel Hnear Hflush.
  pose proof (undo_equation fuel d Hfuel) as Eu. fold d0 in Eu.
  destruct (popped_shape (undo_stack d0)) as [Hautos Hpop].
  rewrite Hnear in Hpop. fold autos in Hpop, Hautos.
  assert (Hc : automatic_undo c = false)
    by (eapply nearest_non_automatic_flag; exact Hnear).
  split; [rewrite Eu, Hnear; reflexivity|].
  split; [|split; [|exact Hautos]].
  - destruct fuel as [|fuel]; [lia|].
    unfold redo, bind, flush_updates, modify. rewrite Hflush.
    cbn [redo_loop]. unfold bind, CommandStack.redo.
    unfold d1 at 1. rewrite Eu. unfold redo_stack at 1. cbn [snd command_stack
      CommandStackState.redo_stack].
    rewrite Hpop, app_assoc, pop_last_snoc, Hc. cbn.
    unfold d1 at 2. rewrite Eu. reflexivity.
  - rewrite <- (walk_partition (undo_stack d0)) at 1.
    rewrite Hpop, rev_app_distr, app_assoc. reflexivity.
Qed.

Lemma undo_then_redo_leaves_automatic_commands_undone_witness :
  let d1 := snd (@undo sample_collaborators 4 sample_history) in
  let mode_change := mkCommand (SetLayerMode 2 1%nat) false in
  let selection := mkCommand (SelectLayer [0%nat]) true in
  fst (@redo sample_collaborators 4 d1) = Ok (Some mode_change)
  /\ undo_stack (snd (@redo sample_collaborators 4 d1)) = [mode_change]
  /\ redo_stack (snd (@redo sample_collaborators 4 d1))
     = redo_stack sample_history ++ [selection; selection].
Proof.
  intros d1 mode_change selection.
  assert (Hu : (length (undo_stack (@flush_observers sample_collaborators
                                      sample_history)) < 4)%nat)
    by (vm_compute; lia).
  destruct (@undo_then_redo_leaves_automatic_commands_undone
              sample_collaborators 4%nat sample_history mode_change
              Hu eq_refl eq_refl) as (_ & Hredo & _ & _).
  fold d1 in Hredo. rewrite Hredo. split; [reflexivity|].
  split; reflexivity.
Defined.

(** X3: [do] discards the redo history and puts the command on top of
    the undo stack; a [redo] that follows, with nothing pending, returns
    [None] and changes nothing. *)
Theorem do_discards_redo_history
        `{Collaborators} (cmd : Command) (d : Document) (fuel : nat) :
  let d1 := snd (do_ cmd d) in
  (0 < fuel)%nat ->
  flush_observers d1 = d1 ->
  redo_stack d1 = []
  /\ undo_stack d1 = undo_stack (flush_observers d) ++ [cmd]
  /\ model d1
     = emit HistoryChanged (cmd_redo cmd (model (flush_observers d)))
  /\ redo fuel d1 = (Ok None, d1).
Proof.
  intros d1 Hfuel Hflush. unfold d1 in *. rewrite do_pushes in *.
  cbn [snd] in *. repeat split.
  destruct fuel as [|fuel]; [lia|].
  unfold redo, bind, flush_updates, modify. rewrite Hflush.
  reflexivity.
Qed.

Lemma do_discards_redo_history_witness :
  let cmd := mkCommand (SetLayerMode 5 1%nat) false in
  let d1 := snd (@do_ sample_collaborators cmd sample_history) in
  redo_stack sample_history <> []
  /\ redo_stack d1 = []
  /\ @redo sample_collaborators 1 d1 = (Ok None, d1).
Proof.
  intros cmd d1.
  destruct (@do_discards_redo_history sample_collaborators cmd sample_history
              1%nat Nat.lt_0_1 eq_refl) as (Hr & _ & _ & Hredo).
  split; [discriminate|]. split; [exact Hr|exact Hredo].
Defined.

(** ** The frame *)

Lemma Rect_eqb_refl (r : Rect.t) : Rect.eqb r r = true.
Proof. now apply Rect_eqb_eq. Qed.

(** What a frame update that is not user initiated does, field by
    field. *)
Lemma update_frame_direct_state
      `{Collaborators} (x y width height : option Z) (d : Document) :
  let old_frame := _frame (model d) in
  let new_frame :=
    Rect.mk (default (Rect.x old_frame) x) (default (Rect.y old_frame) y)
            (default (Rect.w old_frame) width)
            (default (Rect.h old_frame) height) in
  exists d1,
    update_frame x y width height false d = (Ok tt, d1)
    /\ _frame (model d1) = new_frame
    /\ _layers (model d1) = _layers (model d)
    /\ _xres (model d1) = _xres (model d)
    /\ _yres (model d1) = _yres (model d)
    /\ _frame_enabled (model d1) = _frame_enabled (model d)
    /\ unsaved_painting_time (model d1) = unsaved_painting_time (model d)
    /\ command_stack d1 = command_stack d
    /\ events (model d1)
       = events (model d)
         ++ (if Rect.eqb new_frame old_frame then []
             else [FrameUpdated old_frame new_frame]).
Proof.
  intros old_frame new_frame. unfold update_frame.
  fold old_frame. fold new_frame.
  destruct (Rect.eqb new_frame old_frame) eqn:E; cbn [negb].
  - exists d. apply Rect_eqb_eq in E. rewrite E.
    repeat split; try reflexivity. now rewrite app_nil_r.
  - eexists. split; [reflexivity|]. cbn. repeat split; reflexivity.
Qed.

Lemma set_frame_enabled_direct_state
      `{Collaborators} (enabled : bool) (d : Document) :
  exists d1,
    set_frame_enabled enabled false d = (Ok tt, d1)
    /\ _frame_enabled (model d1) = enabled
    /\ _frame (model d1) = _frame (model d)
    /\ _layers (model d1) = _layers (model d)
    /\ _xres (model d1) = _xres (model d)
    /\ _yres (model d1) = _yres (model d)
    /\ unsaved_painting_time (model d1) = unsaved_painting_time (model d)
    /\ command_stack d1 = command_stack d
    /\ events (model d1)
       = events (model d)
         ++ (if Bool.eqb (_frame_enabled (model d)) enabled then []
             else [FrameEnabledChanged enabled]).
Proof.
  unfold set_frame_enabled.
  destruct (Bool.eqb (_frame_enabled (model d)) enabled) eqn:E.
  - exists d. apply eqb_prop in E.
    repeat split; try assumption; try reflexivity. now rewrite app_nil_r.
  - eexists. split; [reflexivity|]. cbn. repeat split; reflexivity.
Qed.

(** X4: a frame update that is not user initiated replaces exactly the
    components given, leaves layers, resolution, frame switch and
    history alone, notifies [frame_updated] once and only when the frame
    changes, and is idempotent: the same update again does nothing. *)
Theorem update_frame_direct_is_idempotent
        `{Collaborators} (x y width height : option Z) (d : Document) :
  let old_frame := _frame (model d) in
  let new_frame :=
    Rect.mk (default (Rect.x old_frame) x) (default (Rect.y old_frame) y)
            (default (Rect.w old_frame) width)
            (default (Rect.h old_frame) height) in
  let d1 := snd (update_frame x y width height false d) in
  fst (update_frame x y width height false d) = Ok tt
  /\ _frame (model d1) = new_frame
  /\ _layers (model d1) = _layers (model d)
  /\ _frame_enabled (model d1) = _frame_enabled (model d)
  /\ command_stack d1 = command_stack d
  /\ events (model d1)
     = events (model d)
       ++ (if Rect.eqb new_frame old_frame then []
           else [FrameUpdated old_frame new_frame])
  /\ update_frame x y width height false d1 = (Ok tt, d1).
Proof.
  intros old_frame new_frame d1.
  destruct (update_frame_direct_state x y width height d)
    as (d1' & E & Hf & Hl & _ & _ & Hen & _ & Hcs & Hev).
  fold old_frame in Hf, Hev. fold new_frame in Hf, Hev.
  unfold d1. rewrite E. cbn [fst snd].
  repeat (split; [first [reflexivity|assumption]|]).
  unfold update_frame. rewrite Hf.
  replace (Rect.mk (default (Rect.x new_frame) x) (default (Rect.y new_frame) y)
                   (default (Rect.w new_frame) width)
                   (default (Rect.h new_frame) height)) with new_frame
    by (unfold new_frame; destruct x, y, width, height; reflexivity).
  now rewrite Rect_eqb_refl.
Qed.

(** X5: [set_frame_enabled] acts only on a change.  Asked for the value
    the switch already has it returns at once, user initiated or not;
    not user initiated it sets the switch, leaves frame and history
    alone and is then idempotent; user initiated it leaves the change
    to a [SetFrameEnabled] command that it pushes. *)
Theorem set_frame_enabled_acts_only_on_change
        `{Collaborators} (enabled user_initiated : bool) (d : Document) :
  let d1 := snd (set_frame_enabled enabled false d) in
  (_frame_enabled (model d) = enabled ->
   set_frame_enabled enabled user_initiated d = (Ok tt, d))
  /\ (_frame_enabled (model d) <> enabled ->
      set_frame_enabled enabled true d
      = do_ (new_command (SetFrameEnabled enabled)) d
      /\ events (model d1)
         = events (model d) ++ [FrameEnabledChanged enabled])
  /\ _frame_enabled (model d1) = enabled
  /\ _frame (model d1) = _frame (model d)
  /\ command_stack d1 = command_stack d
  /\ set_frame_enabled enabled user_initiated d1 = (Ok tt, d1).
Proof.
  intros d1.
  assert (Hsame : forall d', _frame_enabled (model d') = enabled ->
                             set_frame_enabled enabled user_initiated d'
                             = (Ok tt, d')).
  { intros d' E. unfold set_frame_enabled. rewrite E.
    now rewrite eqb_reflx. }
  destruct (set_frame_enabled_direct_state enabled d)
    as (d1' & E & Hen & Hf & _ & _ & _ & _ & Hcs & Hev).
  unfold d1. rewrite E. cbn [snd].
  split; [apply Hsame|]. split.
  - intros Hne. apply eqb_false_iff in Hne. split.
    + unfold set_frame_enabled. now rewrite Hne.
    + now rewrite Hev, Hne.
  - repeat (split; [assumption|]). now apply Hsame.
Qed.

Lemma set_frame_enabled_acts_only_on_change_witness :
  let d1 := snd (@set_frame_enabled sample_collaborators true false
                                    sample_fresh) in
  _frame_enabled (model sample_fresh) <> true
  /\ events (model d1) = [FrameEnabledChanged true]
  /\ @set_frame_enabled sample_collaborators true true d1 = (Ok tt, d1).
Proof.
  intros d1.
  assert (Hne : _frame_enabled (model sample_fresh) <> true) by discriminate.
  destruct (@set_frame_enabled_acts_only_on_change
              sample_collaborators true true sample_fresh)
    as (_ & Hchange & _ & _ & _ & Hagain).
  split; [exact Hne|]. split; [exact (proj2 (Hchange Hne))|exact Hagain].
Defined.

(** X6: user-initiated frame updates coalesce.  With nothing pending, a
    first [update_frame(..., user_initiated=True)] pushes one
    [UpdateFrame] command (the most recent command not being one), and a
    second one updates that command in place: the two calls leave one
    new entry on the undo stack. *)
Theorem update_frame_user_initiated_coalesces
        `{Collaborators} (x1 y1 w1 h1 x2 y2 w2 h2 : option Z) (d : Document) :
  let cmd1 := new_command (UpdateFrame [x1; y1; w1; h1]) in
  let d1 := snd (update_frame x1 y1 w1 h1 true d) in
  let d2 := snd (update_frame x2 y2 w2 h2 true d1) in
  flush_observers d = d ->
  match last (undo_stack d) with
  | Some c => is_UpdateFrame c
  | None => false
  end = false ->
  flush_observers d1 = d1 ->
  undo_stack d1 = undo_stack d ++ [cmd1]
  /\ undo_stack d2
     = undo_stack d
       ++ [fst (cmd_update (F_frame [x2; y2; w2; h2]) cmd1 (model d1))]
  /\ length (undo_stack d2) = S (length (undo_stack d)).
Proof.
  intros cmd1 d1 d2 Hflush Hlast Hflush1.
  assert (E1 : update_frame x1 y1 w1 h1 true d = do_ cmd1 d).
  { unfold update_frame. unfold bind at 1.
    unfold get_last_command, bind, flush_updates, modify,
      CommandStack.get_last_command.
    rewrite Hflush, Hlast. reflexivity. }
  assert (Hd1 : undo_stack d1 = undo_stack d ++ [cmd1]).
  { unfold d1. rewrite E1, do_pushes, Hflush. reflexivity. }
  assert (Hd2 : undo_stack d2
                = undo_stack d
                  ++ [fst (cmd_update (F_frame [x2; y2; w2; h2]) cmd1
                                      (model d1))]).
  { unfold d2, update_frame. unfold bind at 1.
    unfold get_last_command, bind at 1, flush_updates, modify,
      CommandStack.get_last_command.
    rewrite Hflush1, Hd1, last_snoc. cbn [cmd1 new_command is_UpdateFrame action].
    unfold bind at 1.
    rewrite (update_last_command_in_place
               (F_frame [x2; y2; w2; h2]) d1 (undo_stack d) cmd1 Hflush1 Hd1).
    reflexivity. }
  split; [exact Hd1|]. split; [exact Hd2|].
  rewrite Hd2, length_app. cbn. lia.
Qed.

Lemma update_frame_user_initiated_coalesces_witness :
  let d1 := snd (@update_frame sample_collaborators (Some 0) (Some 0)
                               (Some 10) (Some 10) true sample_fresh) in
  let d2 := snd (@update_frame sample_collaborators None None
                               (Some 20) None true d1) in
  length (undo_stack d1) = 1%nat /\ length (undo_stack d2) = 1%nat.
Proof.
  intros d1 d2.
  destruct (@update_frame_user_initiated_coalesces sample_collaborators
              (Some 0) (Some 0) (Some 10) (Some 10) None None (Some 20) None
              sample_fresh eq_refl eq_refl eq_refl) as (H1 & _ & H2).
  fold d1 in H1. fold d1 d2 in H2. rewrite H1, H2. split; reflexivity.
Defined.

(** X7: after [set_frame_to_document()] (not user initiated) the frame
    is the data bounding box, so the effective bounding box is the data
    bounding box whether the frame is enabled or not; after
    [set_frame_to_current_layer()] the frame is the bounding box of the
    current layer.  Neither touches the layers or the history. *)
Theorem set_frame_to_document_makes_frame_the_data_bbox
        `{Collaborators} (d : Document) :
  let d1 := snd (set_frame_to_document false d) in
  let d2 := snd (set_frame_to_current_layer false d) in
  get_frame d1 = get_bbox d
  /\ get_bbox d1 = get_bbox d
  /\ get_effective_bbox d1 = get_bbox d1
  /\ command_stack d1 = command_stack d
  /\ get_frame d2
     = layer_bbox (props_of (LayerStack.current (layer_stack d)))
  /\ layer_stack d2 = layer_stack d
  /\ command_stack d2 = command_stack d.
Proof.
  intros d1 d2.
  destruct (update_frame_direct_state
              (Some (Rect.x (get_bbox d))) (Some (Rect.y (get_bbox d)))
              (Some (Rect.w (get_bbox d))) (Some (Rect.h (get_bbox d))) d)
    as (d1' & E1 & Hf1 & Hl1 & _ & _ & _ & _ & Hcs1 & _).
  set (box := layer_bbox (props_of (LayerStack.current (layer_stack d)))).
  destruct (update_frame_direct_state
              (Some (Rect.x box)) (Some (Rect.y box))
              (Some (Rect.w box)) (Some (Rect.h box)) d)
    as (d2' & E2 & Hf2 & Hl2 & _ & _ & _ & _ & Hcs2 & _).
  unfold d1, d2, set_frame_to_document, set_frame_to_current_layer, set_frame.
  fold box. rewrite E1, E2. cbn [snd].
  assert (Hb : get_bbox d1' = get_bbox d)
    by (unfold get_bbox, layer_stack; now rewrite Hl1).
  assert (Hfr : get_frame d1' = get_bbox d)
    by (unfold get_frame; rewrite Hf1; cbn; now destruct (get_bbox d)).
  repeat split; try assumption.
  - unfold get_effective_bbox. destruct (frame_enabled d1'); [|reflexivity].
    now rewrite Hfr, Hb.
  - unfold get_frame. rewrite Hf2. cbn. now destruct box.
Qed.

(** ** Layer setters that take the layer as an argument *)





(** ** Commands behind a guard *)

(** X9: the guarded layer commands either leave the document exactly as
    it is (no flush, nothing recorded) or push exactly one command.
    [remove_current_layer] and [rename_current_layer] do nothing when
    the current path is [None] or empty; [trim_current_layer] does
    nothing when the frame is disabled; [merge_current_layer_down]
    returns [False] and does nothing when there is no current path or no
    merge target, and returns [True] exactly when it has pushed a
    [MergeLayerDown] command. *)
Theorem guarded_commands_push_one_command_or_nothing
        `{Collaborators} `{MoreCollaborators} (name : string) (d : Document) :
  let path := LayerStack.current_path (layer_stack d) in
  let pushed (c : Command) (r : Result unit * Document) :=
    r = do_ c d /\ undo_stack (snd r) = undo_stack (flush_observers d) ++ [c] in
  (path_truthy path = false ->
   remove_current_layer d = (Ok tt, d)
   /\ rename_current_layer name d = (Ok tt, d))
  /\ (path_truthy path = true ->
      pushed (new_command RemoveLayer) (remove_current_layer d)
      /\ pushed (new_command (RenameLayer name)) (rename_current_layer name d))
  /\ (_frame_enabled (model d) = false -> trim_current_layer d = (Ok tt, d))
  /\ (_frame_enabled (model d) = true ->
      pushed (new_command TrimLayer) (trim_current_layer d))
  /\ (fst (merge_current_layer_down d) = Ok false
      /\ snd (merge_current_layer_down d) = d
      /\ (path = None
          \/ exists p, path = Some p
                       /\ get_merge_down_target (layer_stack d) p = None)
      \/ fst (merge_current_layer_down d) = Ok true
         /\ undo_stack (snd (merge_current_layer_down d))
            = undo_stack (flush_observers d)
              ++ [new_command (OtherAction "MergeLayerDown")]
         /\ exists p, path = Some p
                      /\ is_Some (get_merge_down_target (layer_stack d) p)).
Proof.
  intros path pushed.
  unfold remove_current_layer, rename_current_layer, trim_current_layer,
    merge_current_layer_down, pushed. fold path.
  split; [intros ->; split; reflexivity|].
  split; [intros ->; cbn [negb]; repeat split; reflexivity|].
  split; [intros ->; reflexivity|].
  split; [intros ->; cbn [negb]; repeat split; reflexivity|].
  destruct path as [p|]; [|left; auto].
  destruct (get_merge_down_target (layer_stack d) p) as [t|] eqn:Et.
  - right. unfold bind. rewrite do_pushes. cbn.
    repeat split. exists p. rewrite Et. eauto.
  - left. repeat split. right. eauto.
Qed.

Lemma guarded_commands_push_one_command_or_nothing_witness :
  @remove_current_layer sample_collaborators sample_painted
  = (Ok tt, sample_painted)
  /\ @trim_current_layer sample_collaborators sample_painted
     = (Ok tt, sample_painted)
  /\ undo_stack (snd (@remove_current_layer sample_collaborators sample_twins))
     = [mkCommand RemoveLayer false]
  /\ undo_stack (snd (@trim_current_layer sample_collaborators sample_framed))
     = [mkCommand TrimLayer false].
Proof.
  destruct (@guarded_commands_push_one_command_or_nothing
              sample_collaborators sample_more_collaborators "a" sample_painted)
    as (Hnone & _ & Hoff & _).
  destruct (@guarded_commands_push_one_command_or_nothing
              sample_collaborators sample_more_collaborators "a" sample_twins)
    as (_ & Hsome & _).
  destruct (@guarded_commands_push_one_command_or_nothing
              sample_collaborators sample_more_collaborators "a" sample_framed)
    as (_ & _ & _ & Hon & _).
  split; [exact (proj1 (Hnone eq_refl))|].
  split; [exact (Hoff eq_refl)|].
  split.
  - destruct (Hsome eq_refl) as [[_ Hpush] _]. exact Hpush.
  - destruct (Hon eq_refl) as [_ Hpush]. exact Hpush.
Defined.

(** ** Loading: refusals and outcomes *)

(** X10: [load] refuses a file it may not read, and a file whose
    extension has no loader, with a [SaveLoadError] and without touching
    the document. *)
Theorem load_refuses_unreadable_and_unknown_files
        `{Collaborators} (fs : gmap string FsEntry) (filename : string)
        (d : Document) :
  isfile fs filename = true ->
  (access_R_OK fs filename = false ->
   load fs filename d
   = (Raise (SaveLoadError
               "You do not have the necessary permissions to open file: %s"
               filename), d))
  /\ (access_R_OK fs filename = true ->
      String.eqb (normalized_ext filename) "ora" = false ->
      other_loader (normalized_ext filename) = None ->
      load fs filename d
      = (Raise (SaveLoadError "Unknown file format extension: %s" filename),
         d)).
Proof.
  intros Hfile. unfold load. rewrite Hfile. cbn [negb]. split.
  - intros ->. reflexivity.
  - intros -> Hext Hother. cbn [negb]. unfold getattr_load.
    rewrite Hext, Hother. reflexivity.
Qed.

Lemma load_refuses_unreadable_and_unknown_files_witness :
  let fs : gmap string FsEntry :=
    <["locked.ora" := mkFsEntry true false "framed"]>
      (<["notes.txt" := mkFsEntry true true "framed"]> ∅) in
  fst (@load sample_collaborators fs "locked.ora" sample_history)
  = Raise (SaveLoadError
             "You do not have the necessary permissions to open file: %s"
             "locked.ora")
  /\ @load sample_collaborators fs "notes.txt" sample_history
     = (Raise (SaveLoadError "Unknown file format extension: %s" "notes.txt"),
        sample_history).
Proof.
  intros fs.
  destruct (@load_refuses_unreadable_and_unknown_files
              sample_collaborators fs "locked.ora" sample_history eq_refl)
    as [Hperm _].
  destruct (@load_refuses_unreadable_and_unknown_files
              sample_collaborators fs "notes.txt" sample_history eq_refl)
    as [_ Hext].
  split; [rewrite (Hperm eq_refl); reflexivity|].
  exact (Hext eq_refl eq_refl eq_refl).
Defined.

(** X11: what a loader's outcome becomes.  When the loader chosen for
    the extension returns, [load] empties both history stacks and sets
    the unsaved painting time to zero; when it raises, [load] raises
    too and the history is left as the loader left it: a [GError] or an
    [IOError] becomes a [SaveLoadError], any other exception passes
    through as it is. *)
Theorem load_clears_history_only_on_success
        `{Collaborators} (fs : gmap string FsEntry) (filename : string)
        (d d1 : Document) (r : Result unit) :
  isfile fs filename = true ->
  access_R_OK fs filename = true ->
  getattr_load (normalized_ext filename) fs filename d = (r, d1) ->
  match r with
  | Ok _ =>
      load fs filename d
      = (Ok tt,
         mkDocument (set_unsaved_painting_time 0%Q (model d1))
                    (CommandStackState.mk [] []))
  | Raise (GError e) =>
      load fs filename d
      = (Raise (SaveLoadError "Error while loading: GError %s" e), d1)
  | Raise (IOError e) =>
      load fs filename d
      = (Raise (SaveLoadError "Error while loading: IOError %s" e), d1)
  | Raise e => load fs filename d = (Raise e, d1)
  | OutOfFuel => load fs filename d = (OutOfFuel, d1)
  end.
Proof.
  intros Hfile Hread Hload. unfold load. rewrite Hfile, Hread. cbn [negb].
  rewrite Hload.
  destruct r as [[]|e|]; [reflexivity| |reflexivity].
  destruct e; reflexivity.
Qed.

Lemma load_clears_history_only_on_success_witness :
  let d' := snd (@load sample_collaborators sample_fs "framed.ora"
                       sample_history) in
  undo_stack sample_history <> []
  /\ fst (@load sample_collaborators sample_fs "framed.ora" sample_history)
     = Ok tt
  /\ undo_stack d' = [] /\ redo_stack d' = []
  /\ unsaved_painting_time (model d') = 0%Q.
Proof.
  intros d'.
  pose proof (@load_clears_history_only_on_success
                sample_collaborators sample_fs "framed.ora" sample_history
                (snd (@load_ora sample_collaborators sample_fs "framed.ora"
                                sample_history))
                (Ok tt) eq_refl eq_refl
                ltac:(vm_compute; reflexivity)) as Hload.
  cbv beta iota in Hload. unfold d'. rewrite Hload.
  split; [discriminate|]. repeat split.
Defined.

(** ** Loading an OpenRaster container: failures and the frame *)

Lemma attrib_int_returns_or_raises
      `{Collaborators} (image : Element) (key : string) :
  (exists z, attrib_int image key = Ok z)
  \/ (exists e, attrib_int image key = Raise e).
Proof.
  unfold attrib_int. destruct (attrib_of image !! key) as [v|]; [|eauto].
  destruct (int_of_str v); eauto.
Qed.

(** X12: [load_ora] reads the whole manifest before it touches the
    document.  When the container does not open, has no [stack.xml], or
    the XML does not parse, and when one of [w], [h], [xres], [yres] is
    not an integer, it raises and the document is exactly as before:
    the layers have not been cleared yet. *)
Theorem load_ora_manifest_failure_changes_nothing
        `{Collaborators} (fs : gmap string FsEntry) (filename : string)
        (d : Document) :
  (stack_xml fs filename = None ->
   exists e, load_ora fs filename d = (Raise e, d))
  /\ (forall image key e,
        stack_xml fs filename = Some image ->
        In key ["w"; "h"; "xres"; "yres"] ->
        attrib_int image key = Raise e ->
        exists e', load_ora fs filename d = (Raise e', d)).
Proof.
  unfold load_ora, stack_xml. split.
  - intros Hnone. unfold bind at 1. unfold lift at 1.
    destruct (fs !! filename) as [entry|]; [|eauto].
    destruct (zip_open (content entry)) as [e|orazip]; [cbn; eauto|].
    cbn [of_sum].
    unfold bind at 1. unfold lift at 1, zip_read at 1.
    destruct (orazip !! "mimetype") as [mimetype|]; [|eauto].
    unfold bind at 1. unfold lift at 1, zip_read at 1.
    destruct (orazip !! "stack.xml") as [xml|]; [|eauto].
    unfold bind at 1. unfold lift at 1.
    destruct (xml_fromstring xml) as [e|image]; [cbn; eauto|discriminate].
  - intros image key e Hsome Hkey Hbad. unfold bind at 1. unfold lift at 1.
    destruct (fs !! filename) as [entry|]; [|discriminate].
    destruct (zip_open (content entry)) as [e0|orazip]; [discriminate|].
    cbn [of_sum].
    unfold bind at 1. unfold lift at 1, zip_read at 1.
    destruct (orazip !! "mimetype") as [mimetype|]; [|eauto].
    unfold bind at 1. unfold lift at 1, zip_read at 1.
    destruct (orazip !! "stack.xml") as [xml|]; [|discriminate].
    unfold bind at 1. unfold lift at 1.
    destruct (xml_fromstring xml) as [e0|image0]; [discriminate|].
    injection Hsome as ->. cbn [of_sum].
    unfold bind at 1. unfold lift at 1.
    destruct (attrib_int_returns_or_raises image "w") as [[w Ew]|[ew Ew]];
      rewrite Ew; [|eauto].
    unfold bind at 1. unfold lift at 1.
    destruct (attrib_int_returns_or_raises image "h") as [[h Eh]|[eh Eh]];
      rewrite Eh; [|eauto].
    unfold bind at 1. unfold lift at 1.
    destruct (attrib_int_returns_or_raises image "xres") as [[x Ex]|[ex Ex]];
      rewrite Ex; [|eauto].
    unfold bind at 1. unfold lift at 1.
    destruct (attrib_int_returns_or_raises image "yres") as [[y Ey]|[ey Ey]];
      rewrite Ey; [|eauto].
    exfalso. cbn in Hkey.
    destruct Hkey as [<-|[<-|[<-|[<-|[]]]]]; congruence.
Qed.

Lemma load_ora_manifest_failure_changes_nothing_witness :
  let fs : gmap string FsEntry :=
    <["broken.ora" := mkFsEntry true true "no such document"]> sample_fs in
  @stack_xml sample_collaborators fs "broken.ora" = None
  /\ @load_ora sample_collaborators fs "broken.ora" sample_history
     = (Raise (OtherError "ParseError"), sample_history).
Proof.
  intros fs.
  destruct (@load_ora_manifest_failure_changes_nothing
              sample_collaborators fs "broken.ora" sample_history)
    as [Hnone _].
  split; [reflexivity|].
  destruct (Hnone eq_refl) as [e He]. rewrite He. f_equal.
  assert (Hfst : fst (@load_ora sample_collaborators fs "broken.ora"
                                sample_history)
                 = Raise (OtherError "ParseError"))
    by (vm_compute; reflexivity).
  rewrite He in Hfst. exact Hfst.
Defined.

(** What a completed [load_ora] leaves in the document. *)
Lemma load_ora_completed_state
      `{Collaborators} (fs : gmap string FsEntry) (filename : string)
      (d d' : Document) :
  load_ora fs filename d = (Ok tt, d') ->
  exists image w h xres yres,
    stack_xml fs filename = Some image
    /\ attrib_int image "w" = Ok w
    /\ attrib_int image "h" = Ok h
    /\ attrib_int image "xres" = Ok xres
    /\ attrib_int image "yres" = Ok yres
    /\ _frame (model d') = Rect.mk 0 0 (Z.max 0 w) (Z.max 0 h)
    /\ command_stack d' = command_stack d
    /\ LayerStack.len (layer_stack d') <> 0%nat
    /\ _xres (model d')
       = (if negb (Z.max 0 xres =? 0) && negb (Z.max 0 yres =? 0)
          then Some (Z.max 0 xres) else None)
    /\ _yres (model d')
       = (if negb (Z.max 0 xres =? 0) && negb (Z.max 0 yres =? 0)
          then Some (Z.max 0 yres) else None).
Proof.
  unfold load_ora, stack_xml. intros Hload.
  unfold bind at 1 in Hload. unfold lift at 1 in Hload.
  destruct (fs !! filename) as [entry|]; [|discriminate].
  destruct (zip_open (content entry)) as [e|orazip]; [discriminate|].
  cbn [of_sum] in Hload.
  unfold bind at 1 in Hload. unfold lift at 1, zip_read at 1 in Hload.
  destruct (orazip !! "mimetype") as [mimetype|]; [|discriminate].
  unfold bind at 1 in Hload. unfold lift at 1, zip_read at 1 in Hload.
  destruct (orazip !! "stack.xml") as [xml|]; [|discriminate].
  unfold bind at 1 in Hload. unfold lift at 1 in Hload.
  destruct (xml_fromstring xml) as [e|image]; [discriminate|].
  cbn [of_sum] in Hload.
  unfold bind at 1 in Hload. unfold lift at 1 in Hload.
  destruct (attrib_int image "w") as [w| |] eqn:Ew; try discriminate.
  unfold bind at 1 in Hload. unfold lift at 1 in Hload.
  destruct (attrib_int image "h") as [h| |] eqn:Eh; try discriminate.
  unfold bind at 1 in Hload. unfold lift at 1 in Hload.
  destruct (attrib_int image "xres") as [xres| |] eqn:Exres; try discriminate.
  unfold bind at 1 in Hload. unfold lift at 1 in Hload.
  destruct (attrib_int image "yres") as [yres| |] eqn:Eyres; try discriminate.
  unfold bind at 1 in Hload. unfold modify at 1 in Hload.
  unfold bind at 1 in Hload. unfold on_model at 1 in Hload.
  cbn [model with_model] in Hload.
  destruct (load_from_openraster orazip (find_child image "stack")
                                 (layer_stack_clear (model d)))
    as [[[]| |] m1]; try discriminate.
  unfold bind at 1 in Hload. unfold get at 1 in Hload.
  match type of Hload with
  | context [if Nat.eqb ?n 0 then _ else _] =>
      destruct (Nat.eqb_spec n 0) as [|Hlen]; [discriminate|]
  end.
  unfold bind at 1 in Hload. unfold modify at 1 in Hload.
  unfold bind at 1 in Hload.
  match type of Hload with
  | context [update_frame ?a ?b ?c ?e false ?s] =>
      destruct (update_frame_direct_state a b c e s)
        as (d2 & E2 & Hf2 & Hl2 & Hx2 & Hy2 & _ & _ & Hcs2 & _)
  end.
  rewrite E2 in Hload.
  unfold bind at 1 in Hload. unfold get at 1 in Hload.
  match type of Hload with
  | set_frame_enabled ?b false ?s = _ =>
      destruct (set_frame_enabled_direct_state b s)
        as (d3 & E3 & _ & Hf3 & Hl3 & Hx3 & Hy3 & _ & Hcs3 & _)
  end.
  rewrite E3 in Hload. injection Hload as <-.
  exists image, w, h, xres, yres.
  split; [reflexivity|].
  split; [exact Ew|]. split; [exact Eh|].
  split; [exact Exres|]. split; [exact Eyres|].
  split; [rewrite Hf3, Hf2; reflexivity|].
  split.
  { rewrite Hcs3, Hcs2.
    destruct (negb (Z.max 0 xres =? 0) && negb (Z.max 0 yres =? 0));
      reflexivity. }
  split.
  { unfold layer_stack. rewrite Hl3, Hl2.
    destruct (negb (Z.max 0 xres =? 0) && negb (Z.max 0 yres =? 0));
      exact Hlen. }
  split.
  - rewrite Hx3, Hx2.
    destruct (negb (Z.max 0 xres =? 0) && negb (Z.max 0 yres =? 0));
      reflexivity.
  - rewrite Hy3, Hy2.
    destruct (negb (Z.max 0 xres =? 0) && negb (Z.max 0 yres =? 0));
      reflexivity.
Qed.

(** X13: a completed [load_ora] leaves the frame at the origin with the
    declared size, [(0, 0, max(0, w), max(0, h))], a layer stack that is
    not empty, and the command stack as it found it (it is [load] that
    clears the history). *)
Theorem load_ora_sets_frame_and_keeps_history
        `{Collaborators} (fs : gmap string FsEntry) (filename : string)
        (d d' : Document) :
  load_ora fs filename d = (Ok tt, d') ->
  exists image w h,
    stack_xml fs filename = Some image
    /\ attrib_int image "w" = Ok w
    /\ attrib_int image "h" = Ok h
    /\ get_frame d' = Rect.mk 0 0 (Z.max 0 w) (Z.max 0 h)
    /\ command_stack d' = command_stack d
    /\ LayerStack.len (layer_stack d') <> 0%nat.
Proof.
  intros Hload.
  destruct (load_ora_completed_state fs filename d d' Hload)
    as (image & w & h & xres & yres & Hs & Hw & Hh & _ & _ & Hf & Hcs & Hlen
        & _).
  exists image, w, h. repeat split; assumption.
Qed.

Lemma load_ora_sets_frame_and_keeps_history_witness :
  let d' := snd (@load_ora sample_collaborators sample_fs "framed.ora"
                           sample_history) in
  get_frame d' = Rect.mk 0 0 100 80
  /\ command_stack d' = command_stack sample_history.
Proof.
  intros d'.
  assert (Hload : @load_ora sample_collaborators sample_fs "framed.ora"
                            sample_history = (Ok tt, d'))
    by (vm_compute; reflexivity).
  destruct (@load_ora_sets_frame_and_keeps_history
              sample_collaborators sample_fs "framed.ora" sample_history d'
              Hload) as (image & w & h & _ & _ & _ & _ & Hcs & _).
  split; [reflexivity|exact Hcs].
Defined.

(** ** Bounding boxes as unions *)

Lemma covers_refl (r : Rect.t) : covers r r.
Proof. unfold covers. lia. Qed.

Lemma covers_trans (a b c : Rect.t) : covers a b -> covers b c -> covers a c.
Proof. unfold covers. lia. Qed.

Lemma positive_not_empty (r : Rect.t) : positive_rect r -> Rect.empty r = false.
Proof.
  intros [Hw Hh]. unfold Rect.empty.
  destruct (Z.eqb_spec (Rect.w r) 0), (Z.eqb_spec (Rect.h r) 0);
    first [lia | reflexivity].
Qed.

Lemma expandToIncludePoint_positive (r : Rect.t) (px py : Z) :
  positive_rect r ->
  positive_rect (Rect.expandToIncludePoint r px py)
  /\ covers (Rect.expandToIncludePoint r px py) r
  /\ Rect.contains_point (Rect.expandToIncludePoint r px py) px py.
Proof.
  intros Hpos. pose proof (positive_not_empty r Hpos) as He.
  destruct Hpos as [Hw Hh]. destruct r as [rx ry rw rh]. cbn in Hw, Hh.
  unfold Rect.expandToIncludePoint. rewrite He. clear He.
  unfold positive_rect, covers, Rect.contains_point. cbn.
  rect_cases; repeat split; lia.
Qed.

Lemma expandToIncludeRect_positive (r other : Rect.t) :
  positive_rect r -> positive_rect other ->
  positive_rect (Rect.expandToIncludeRect r other)
  /\ covers (Rect.expandToIncludeRect r other) r
  /\ covers (Rect.expandToIncludeRect r other) other.
Proof.
  intros Hr Ho. unfold Rect.expandToIncludeRect.
  rewrite (positive_not_empty other Ho).
  destruct (expandToIncludePoint_positive r (Rect.x other) (Rect.y other) Hr)
    as (P1 & C1 & I1).
  set (r1 := Rect.expandToIncludePoint r (Rect.x other) (Rect.y other)) in *.
  destruct (expandToIncludePoint_positive
              r1 (Rect.x other + Rect.w other - 1)
              (Rect.y other + Rect.h other - 1) P1) as (P2 & C2 & I2).
  split; [exact P2|]. split; [eapply covers_trans; eassumption|].
  destruct Ho as [How Hoh].
  unfold covers, Rect.contains_point in *. lia.
Qed.

(** The union loop of [get_bbox], from any accumulator. *)
Lemma union_loop_covers (box : Layer -> Rect.t) (layers : list Layer) :
  Forall (fun l => 0 <= Rect.w (box l) /\ 0 <= Rect.h (box l)) layers ->
  forall acc,
    acc = Rect.default \/ positive_rect acc ->
    let res := fold_left (fun r l => Rect.expandToIncludeRect r (box l))
                         layers acc in
    (res = Rect.default \/ positive_rect res)
    /\ (positive_rect acc -> covers res acc)
    /\ (forall l, In l layers -> positive_rect (box l) -> covers res (box l))
    /\ (acc = Rect.default ->
        Forall (fun l => Rect.empty (box l) = true) layers ->
        res = Rect.default).
Proof.
  induction 1 as [|l layers [Hw Hh] _ IH]; intros acc Hacc; cbn.
  - split; [exact Hacc|]. split; [intros _; apply covers_refl|].
    split; [intros l []|auto].
  - set (acc1 := Rect.expandToIncludeRect acc (box l)).
    assert (Hstep :
              (Rect.empty (box l) = true /\ acc1 = acc)
              \/ (positive_rect (box l) /\ positive_rect acc1
                  /\ covers acc1 (box l)
                  /\ (positive_rect acc -> covers acc1 acc))).
    { destruct (Rect.empty (box l)) eqn:Ee.
      - left. split; [reflexivity|]. unfold acc1, Rect.expandToIncludeRect.
        now rewrite Ee.
      - right. assert (Hp : positive_rect (box l)).
        { unfold Rect.empty in Ee. apply orb_false_iff in Ee.
          destruct Ee as [E1 E2]. apply Z.eqb_neq in E1, E2.
          split; lia. }
        split; [exact Hp|].
        destruct Hacc as [->|Hpa].
        + unfold acc1. rewrite expand_empty_by_rect by (try reflexivity; apply Hp).
          split; [exact Hp|]. split; [apply covers_refl|].
          intros [Hbad _]. cbn in Hbad. lia.
        + destruct (expandToIncludeRect_positive acc (box l) Hpa Hp)
            as (P & C1 & C2). auto. }
    assert (Hacc1 : acc1 = Rect.default \/ positive_rect acc1).
    { destruct Hstep as [[_ ->]|(_ & P & _)]; auto. }
    destruct (IH acc1 Hacc1) as (I1 & I2 & I3 & I4).
    split; [exact I1|]. split; [|split].
    + intros Hpa. destruct Hstep as [[_ E]|(_ & P & _ & C)].
      * eapply covers_trans;
          [apply I2; rewrite E; exact Hpa|rewrite E; apply covers_refl].
      * eapply covers_trans; [apply I2; exact P|auto].
    + intros l' [<-|Hin] Hp; [|auto].
      destruct Hstep as [[Ee _]|(_ & P & C & _)].
      * rewrite (positive_not_empty _ Hp) in Ee. discriminate.
      * eapply covers_trans; [apply I2; exact P|exact C].
    + intros -> Hall. inversion Hall as [|? ? Ee Hrest]; subst.
      apply I4; [|exact Hrest].
      unfold acc1, Rect.expandToIncludeRect. now rewrite Ee.
Qed.

(** X14: the data bounding box is the union of the layers' boxes.  When
    no layer reports a negative width or height, [get_bbox] covers the
    box of every layer that has a box of positive size, it is [Rect()]
    or a rectangle of positive size, and it is [Rect()] when every layer
    is empty (in particular when there is no layer). *)
Theorem get_bbox_covers_every_layer (d : Document) :
  Forall (fun l => 0 <= Rect.w (layer_bbox (props_of l))
                   /\ 0 <= Rect.h (layer_bbox (props_of l)))
         (LayerStack.deepiter (layer_stack d)) ->
  (forall l, In l (LayerStack.deepiter (layer_stack d)) ->
             positive_rect (layer_bbox (props_of l)) ->
             covers (get_bbox d) (layer_bbox (props_of l)))
  /\ (get_bbox d = Rect.default \/ positive_rect (get_bbox d))
  /\ (Forall (fun l => Rect.empty (layer_bbox (props_of l)) = true)
             (LayerStack.deepiter (layer_stack d)) ->
      get_bbox d = Rect.default).
Proof.
  intros Hnonneg.
  destruct (union_loop_covers (fun l => layer_bbox (props_of l))
              (LayerStack.deepiter (layer_stack d)) Hnonneg
              Rect.default (or_introl eq_refl)) as (I1 & _ & I3 & I4).
  split; [exact I3|]. split; [exact I1|]. exact (I4 eq_refl).
Qed.

Lemma get_bbox_covers_every_layer_witness :
  get_bbox sample_painted = Rect.mk 0 (-20) 130 84
  /\ covers (get_bbox sample_painted) (Rect.mk 100 (-20) 30 40).
Proof.
  assert (Hnonneg :
            Forall (fun l => 0 <= Rect.w (layer_bbox (props_of l))
                             /\ 0 <= Rect.h (layer_bbox (props_of l)))
                   (LayerStack.deepiter (layer_stack sample_painted))).
  { repeat constructor; cbn; lia. }
  destruct (get_bbox_covers_every_layer sample_painted Hnonneg)
    as (Hcov & _ & _).
  split; [reflexivity|].
  apply (Hcov (sample_layer 2%nat 0 (Rect.mk 100 (-20) 30 40)
                            (Rect.mk 100 (-20) 30 40))).
  - cbn. auto.
  - split; cbn; lia.
Defined.

Lemma full_redraw_loop_without_infinite (layers : list Layer) :
  Forall (fun l => (Rect.w (layer_full_redraw_bbox (props_of l)) =? 0)
                   && (Rect.h (layer_full_redraw_bbox (props_of l)) =? 0)
                   = false) layers ->
  forall acc,
    fold_left full_redraw_step layers acc
    = fold_left (fun r l => Rect.expandToIncludeRect
                              r (layer_full_redraw_bbox (props_of l)))
                layers acc.
Proof.
  induction 1 as [|l layers Hl _ IH]; intros acc; cbn; [reflexivity|].
  unfold full_redraw_step at 2. rewrite Hl. apply IH.
Qed.

(** X15: what the full-redraw bounding box depends on.  The layers that
    come before an infinite layer in the traversal have no influence on
    the result; and when no layer is infinite (and none reports a
    negative size) the result covers the full-redraw box of every layer
    that has one of positive size. *)
Theorem full_redraw_bbox_ignores_layers_before_an_infinite_one
        (d : Document) :
  (forall pre inf post,
      LayerStack.deepiter (layer_stack d) = pre ++ inf :: post ->
      Rect.w (layer_full_redraw_bbox (props_of inf)) = 0 ->
      Rect.h (layer_full_redraw_bbox (props_of inf)) = 0 ->
      get_full_redraw_bbox d = get_full_redraw_bbox_of (inf :: post))
  /\ (Forall (fun l =>
                0 < Rect.w (layer_full_redraw_bbox (props_of l))
                /\ 0 <= Rect.h (layer_full_redraw_bbox (props_of l))
                \/ 0 <= Rect.w (layer_full_redraw_bbox (props_of l))
                   /\ 0 < Rect.h (layer_full_redraw_bbox (props_of l)))
             (LayerStack.deepiter (layer_stack d)) ->
      forall l, In l (LayerStack.deepiter (layer_stack d)) ->
                positive_rect (layer_full_redraw_bbox (props_of l)) ->
                covers (get_full_redraw_bbox d)
                       (layer_full_redraw_bbox (props_of l))).
Proof.
  unfold get_full_redraw_bbox, get_full_redraw_bbox_of. split.
  - intros pre inf post -> Hw Hh.
    assert (Hstep : forall acc,
               full_redraw_step acc inf
               = layer_full_redraw_bbox (props_of inf))
      by (intros acc; unfold full_redraw_step; now rewrite Hw, Hh).
    rewrite fold_left_app. cbn [fold_left]. now rewrite !Hstep.
  - intros Hsizes l Hin Hpos.
    rewrite full_redraw_loop_without_infinite.
    + eapply (union_loop_covers
                (fun l => layer_full_redraw_bbox (props_of l))
                (LayerStack.deepiter (layer_stack d))); auto.
      eapply List.Forall_impl; [|exact Hsizes]. cbn. intros; lia.
    + eapply List.Forall_impl; [|exact Hsizes]. cbn. intros a Ha.
      apply andb_false_iff.
      destruct Ha as [[? ?]|[? ?]]; [left|right]; apply Z.eqb_neq; lia.
Qed.

Lemma full_redraw_bbox_ignores_layers_before_an_infinite_one_witness :
  let painted := sample_layer 2%nat 0 (Rect.mk 10 10 5 5) (Rect.mk 10 10 5 5) in
  let infinite := sample_layer 1%nat 0 Rect.default (Rect.mk 0 0 0 0) in
  let far := sample_layer 3%nat 0 (Rect.mk 50 50 2 2) (Rect.mk 50 50 2 2) in
  get_full_redraw_bbox (sample_document [painted; infinite; far] None [] [])
  = Rect.mk 50 50 2 2.
Proof.
  intros painted infinite far.
  destruct (full_redraw_bbox_ignores_layers_before_an_infinite_one
              (sample_document [painted; infinite; far] None [] []))
    as [Hprefix _].
  rewrite (Hprefix [painted] infinite [far] eq_refl eq_refl eq_refl).
  reflexivity.
Defined.

(** ** Flood fill on a document that is not empty *)

(** X16: the bounds of a flood fill on a non-empty effective bounding
    box.  With the frame enabled the [FloodFill] command gets the frame
    itself, wherever the seed is; with the frame disabled it gets the
    data bounding box expanded to include the seed, a rectangle that
    covers the data bounding box and contains the seed.  The fill goes
    to a new layer whenever the current layer is not fillable. *)
Theorem flood_fill_bounds_on_non_empty_document
        `{Collaborators} (x y : Z) (color : Q * Q * Q) (tolerance : Q)
        (sample_merged make_new_layer : bool) (d : Document) :
  let new_layer :=
    if fillable (props_of (LayerStack.current (layer_stack d)))
    then make_new_layer else true in
  let fill bounds :=
    do_ (new_command (FloodFill x y color bounds tolerance sample_merged
                                new_layer)) d in
  (frame_enabled d = true -> Rect.empty (get_frame d) = false ->
   flood_fill x y color tolerance sample_merged make_new_layer d
   = fill (get_frame d))
  /\ (frame_enabled d = false -> positive_rect (get_bbox d) ->
      flood_fill x y color tolerance sample_merged make_new_layer d
      = fill (Rect.expandToIncludePoint (get_bbox d) x y)
      /\ covers (Rect.expandToIncludePoint (get_bbox d) x y) (get_bbox d)
      /\ Rect.contains_point (Rect.expandToIncludePoint (get_bbox d) x y) x y).
Proof.
  intros new_layer fill. unfold fill, new_layer, flood_fill, get_effective_bbox.
  split.
  - intros -> ->. cbn [negb].
    now destruct (fillable (props_of (LayerStack.current (layer_stack d)))).
  - intros -> Hpos. rewrite (positive_not_empty _ Hpos). cbn [negb].
    destruct (expandToIncludePoint_positive (get_bbox d) x y Hpos)
      as (_ & Hc & Hi).
    split; [|split; assumption].
    now destruct (fillable (props_of (LayerStack.current (layer_stack d)))).
Qed.

Lemma flood_fill_bounds_on_non_empty_document_witness :
  last (undo_stack
          (snd (@flood_fill sample_collaborators 500 500 (1%Q, 0%Q, 0%Q)
                            (1 # 10) false false sample_framed)))
  = Some (mkCommand
            (FloodFill 500 500 (1%Q, 0%Q, 0%Q) (Rect.mk 10 10 100 80)
                       (1 # 10) false false) false)
  /\ last (undo_stack
             (snd (@flood_fill sample_collaborators 200 (-30) (1%Q, 0%Q, 0%Q)
                               (1 # 10) false false sample_painted)))
     = Some (mkCommand
               (FloodFill 200 (-30) (1%Q, 0%Q, 0%Q) (Rect.mk 0 (-30) 201 94)
                          (1 # 10) false true) false).
Proof.
  destruct (@flood_fill_bounds_on_non_empty_document
              sample_collaborators 500 500 (1%Q, 0%Q, 0%Q) (1 # 10)
              false false sample_framed) as [Hframe _].
  destruct (@flood_fill_bounds_on_non_empty_document
              sample_collaborators 200 (-30) (1%Q, 0%Q, 0%Q) (1 # 10)
              false false sample_painted) as [_ Hdata].
  assert (Hpos : positive_rect (get_bbox sample_painted))
    by (vm_compute; split; reflexivity).
  split.
  - rewrite (Hframe eq_refl eq_refl). reflexivity.
  - destruct (Hdata eq_refl Hpos) as [Hfill _]. rewrite Hfill. reflexivity.
Defined.

(** ** Brush settings *)

Local Set Warnings "-clear-no-such-hyp".

(** X17: [brushsettings_changed_cb] flushes pending updates exactly when
    a setting outside the lightweight ones has changed; a change of
    lightweight settings only leaves the document as it is. *)
Theorem brushsettings_changed_flushes_unless_lightweight
        `{Collaborators} (settings : gset string) (d : Document) :
  (settings ⊆ lightweight_settings ->
   brushsettings_changed_cb settings d = (Ok tt, d))
  /\ (forall s, s ∈ settings -> s ∉ lightweight_settings ->
                brushsettings_changed_cb settings d
                = (Ok tt, flush_observers d)).
Proof.
  unfold brushsettings_changed_cb. split.
  - intros Hsub. destruct (decide (settings ∖ lightweight_settings = ∅));
      [reflexivity|]. exfalso. set_solver.
  - intros s Hin Hout.
    destruct (decide (settings ∖ lightweight_settings = ∅));
      [|reflexivity]. exfalso. set_solver.
Qed.

Lemma brushsettings_changed_flushes_unless_lightweight_witness :
  @brushsettings_changed_cb sample_collaborators {["hardness"; "color_h"]}
                            sample_history
  = (Ok tt, sample_history)
  /\ @brushsettings_changed_cb sample_collaborators {["hardness"; "eraser"]}
                               sample_history
     = (Ok tt, @flush_observers sample_collaborators sample_history).
Proof.
  destruct (@brushsettings_changed_flushes_unless_lightweight
              sample_collaborators {["hardness"; "color_h"]} sample_history)
    as [Hlight _].
  destruct (@brushsettings_changed_flushes_unless_lightweight
              sample_collaborators {["hardness"; "eraser"]} sample_history)
    as [_ Hother].
  split.
  - apply Hlight. unfold lightweight_settings. set_solver.
  - apply (Hother "eraser"); unfold lightweight_settings; set_solver.
Defined.

(** ** Clearing the document *)

(** X18: [clear] (on a painting-only document) always completes.  The
    layer stack it leaves is the emptied one with the [AddLayer] command
    for path [(-1,)] applied to it and its first layer selected; the
    history is empty all the same, the command having been dropped from
    it.  The frame is [(0, 0, 0, 0)] and disabled, the resolution is
    unset (so [get_resolution] is 72) and the unsaved painting time is
    zero.  The notifications are those of the [AddLayer] command, one
    history change, a frame update when the frame was not
    [(0, 0, 0, 0)], a frame switch when the frame was enabled, and a
    final redraw of the full-redraw box the document had before.  An
    [undo] right after it, with nothing pending, returns [None]. *)
Theorem clear_resets_the_document
        `{Collaborators} `{MoreCollaborators} (d : Document) (fuel : nat) :
  let d' := snd (clear d) in
  let before :=
    with_model (set_symmetry_state false None (model (flush_observers d)))
               (flush_observers d) in
  let prev_area := get_full_redraw_bbox before in
  let emptied :=
    flush_observers
      (with_model (layer_stack_clear (model before))
                  (with_stacks [] [] before)) in
  let added := cmd_redo (new_command (AddLayer [-1])) (model emptied) in
  fst (clear d) = Ok tt
  /\ undo_stack d' = [] /\ redo_stack d' = []
  /\ get_frame d' = Rect.mk 0 0 0 0
  /\ frame_enabled d' = false
  /\ _xres (model d') = None /\ _yres (model d') = None
  /\ get_resolution d' = DEFAULT_RESOLUTION
  /\ unsaved_painting_time (model d') = 0%Q
  /\ LayerStack.current_path (layer_stack d') = Some [0%nat]
  /\ last (events (model d'))
     = Some (CanvasAreaModified (Rect.x prev_area) (Rect.y prev_area)
                                (Rect.w prev_area) (Rect.h prev_area))
  /\ (flush_observers d' = d' -> (0 < fuel)%nat ->
      undo fuel d' = (Ok None, d'))
  /\ layer_stack d'
     = LayerStack.mk (LayerStack.root (_layers added)) (Some [0%nat])
  /\ events (model d')
     = events added
       ++ [HistoryChanged]
       ++ (if Rect.eqb (Rect.mk 0 0 0 0) (_frame added) then []
           else [FrameUpdated (_frame added) (Rect.mk 0 0 0 0)])
       ++ (if Bool.eqb (_frame_enabled added) false then []
           else [FrameEnabledChanged false])
       ++ [CanvasAreaModified (Rect.x prev_area) (Rect.y prev_area)
                              (Rect.w prev_area) (Rect.h prev_area)].
Proof.
  intros d' before prev_area emptied added.
  set (d3 := with_stacks [] [] before).
  set (d4 := with_model (layer_stack_clear (model d3)) d3).
  set (d5 := snd (do_ (new_command (AddLayer [-1])) d4)).
  set (d6 := with_model (select_path [0%nat] (model d5)) d5).
  set (d8 := with_model (set_unsaved_painting_time 0%Q (model d6))
                        (with_stacks [] [] d6)).
  assert (E : clear d
              = (let! _ := set_frame (Rect.mk 0 0 0 0) false in
                 let! _ := set_frame_enabled false false in
                 let! _ := modify (fun d => with_model
                                              (set_res_fields None None (model d))
                                              d) in
                 canvas_area_modified (Rect.x prev_area) (Rect.y prev_area)
                                      (Rect.w prev_area) (Rect.h prev_area))
                  d8) by reflexivity.
  assert (Hl8 : _layers (model d8)
                = LayerStack.mk (LayerStack.root (_layers added))
                                (Some [0%nat])) by reflexivity.
  assert (He8 : events (model d8) = events added ++ [HistoryChanged])
    by reflexivity.
  assert (Hf8 : _frame (model d8) = _frame added) by reflexivity.
  assert (Hen8 : _frame_enabled (model d8) = _frame_enabled added)
    by reflexivity.
  destruct (update_frame_direct_state (Some 0) (Some 0) (Some 0) (Some 0) d8)
    as (d9 & E9 & Hf9 & Hl9 & _ & _ & Hen9 & Ht9 & Hcs9 & He9).
  destruct (set_frame_enabled_direct_state false d9)
    as (d10 & E10 & Hen10 & Hf10 & Hl10 & _ & _ & Ht10 & Hcs10 & He10).
  assert (E' : clear d
               = (Ok tt,
                  with_model
                    (emit (CanvasAreaModified
                             (Rect.x prev_area) (Rect.y prev_area)
                             (Rect.w prev_area) (Rect.h prev_area))
                          (set_res_fields None None (model d10))) d10)).
  { rewrite E. unfold set_frame. cbn [Rect.x Rect.y Rect.w Rect.h].
    unfold bind at 1. rewrite E9.
    unfold bind at 1. rewrite E10. reflexivity. }
  unfold d'. rewrite E'. cbn [fst snd].
  assert (Hus : undo_stack (with_model
                    (emit (CanvasAreaModified
                             (Rect.x prev_area) (Rect.y prev_area)
                             (Rect.w prev_area) (Rect.h prev_area))
                          (set_res_fields None None (model d10))) d10) = [])
    by (unfold undo_stack; cbn; now rewrite Hcs10, Hcs9).
  split; [reflexivity|]. split; [exact Hus|].
  split; [unfold redo_stack; cbn; now rewrite Hcs10, Hcs9|].
  split; [unfold get_frame; cbn; now rewrite Hf10, Hf9|].
  split; [unfold frame_enabled; cbn; exact Hen10|].
  split; [reflexivity|]. split; [reflexivity|]. split; [reflexivity|].
  split; [cbn; now rewrite Ht10, Ht9|].
  split; [unfold layer_stack; cbn; now rewrite Hl10, Hl9|].
  split; [cbn; apply last_snoc|].
  split.
  { intros Hflush Hfuel. destruct fuel as [|fuel]; [lia|].
    unfold undo, bind, flush_updates, modify. rewrite Hflush.
    cbn [undo_loop]. unfold bind, CommandStack.undo. now rewrite Hus. }
  split.
  - unfold layer_stack. cbn. now rewrite Hl10, Hl9, Hl8.
  - cbn. rewrite He10, He9, Hen9, Hen8, Hf8, He8.
    cbn [default]. now rewrite <- !app_assoc.
Qed.

Lemma clear_resets_the_document_witness :
  let d' := snd (@clear layering_collaborators sample_more_collaborators
                        sample_framed) in
  get_frame sample_framed <> Rect.mk 0 0 0 0
  /\ get_frame d' = Rect.mk 0 0 0 0
  /\ get_resolution d' = 72
  /\ @undo layering_collaborators 1 d' = (Ok None, d')
  /\ layer_stack d'
     = LayerStack.mk
         (Node (mkLayerProps 0%nat 0 1%Q true false Rect.default
                             Rect.default false)
               [sample_layer 1%nat 0 Rect.default Rect.default])
         (Some [0%nat])
  /\ events (model d')
     = [HistoryChanged;
        FrameUpdated (Rect.mk 10 10 100 80) (Rect.mk 0 0 0 0);
        FrameEnabledChanged false;
        CanvasAreaModified 0 0 64 64].
Proof.
  intros d'.
  destruct (@clear_resets_the_document
              layering_collaborators sample_more_collaborators sample_framed
              1%nat)
    as (_ & _ & _ & Hf & _ & _ & _ & Hres & _ & _ & _ & Hundo & Hl & He).
  split; [discriminate|]. split; [exact Hf|]. split; [exact Hres|].
  split; [exact (Hundo eq_refl Nat.lt_0_1)|].
  split; [exact Hl|exact He].
Defined.

(** ** Saving and loading again *)

Lemma save_ora_image_attrib_lookup
      `{Collaborators} `{MoreCollaborators} (d : Document) :
  let both := truthy (_xres (model d)) && truthy (_yres (model d)) in
  save_ora_image_attrib d !! "w"
  = Some (str_of_int (Rect.w (get_effective_bbox d)))
  /\ save_ora_image_attrib d !! "h"
     = Some (str_of_int (Rect.h (get_effective_bbox d)))
  /\ save_ora_image_attrib d !! "xres"
     = (if both then Some (str_of_int (default 0 (_xres (model d)))) else None)
  /\ save_ora_image_attrib d !! "yres"
     = (if both then Some (str_of_int (default 0 (_yres (model d)))) else None)
  /\ save_ora_image_attrib d !! "version" = Some "0.0.4-pre.1".
Proof.
  intros both. unfold save_ora_image_attrib. fold both.
  destruct both;
    repeat split;
    repeat first [ rewrite lookup_insert_eq
                 | rewrite lookup_insert_ne by discriminate
                 | rewrite lookup_empty ];
    reflexivity.
Qed.

(** X19: what [save_ora] writes on the [image] element, [load_ora] reads
    back.  When the manifest of a container carries the [w], [h], [xres]
    and [yres] that [save_ora] writes for a document (whose stored
    resolution is not negative, and with [int] undoing [str] on the
    numbers written), a completed [load_ora] gives the resolution of the
    saved document and a frame of the size of its effective bounding
    box, moved to the origin. *)
Theorem saved_resolution_and_size_survive_load
        `{Collaborators} `{MoreCollaborators}
        (fs : gmap string FsEntry) (filename : string)
        (saved d d' : Document) (image : Element) :
  let box := get_effective_bbox saved in
  load_ora fs filename d = (Ok tt, d') ->
  stack_xml fs filename = Some image ->
  (forall key, In key ["w"; "h"; "xres"; "yres"] ->
               attrib_of image !! key = save_ora_image_attrib saved !! key) ->
  int_of_str (str_of_int (Rect.w box)) = Some (Rect.w box) ->
  int_of_str (str_of_int (Rect.h box)) = Some (Rect.h box) ->
  (forall v, _xres (model saved) = Some v ->
             0 <= v /\ int_of_str (str_of_int v) = Some v) ->
  (forall v, _yres (model saved) = Some v ->
             0 <= v /\ int_of_str (str_of_int v) = Some v) ->
  get_resolution d' = get_resolution saved
  /\ get_frame d' = Rect.mk 0 0 (Z.max 0 (Rect.w box)) (Z.max 0 (Rect.h box)).
Proof.
  intros box Hload Hxml Hattr Hw Hh Hx Hy.
  destruct (load_ora_completed_state fs filename d d' Hload)
    as (image' & w & h & xres & yres & Hs & Ew & Eh & Ex & Ey & Hf & _ & _
        & Rx & Ry).
  rewrite Hxml in Hs. injection Hs as <-.
  destruct (save_ora_image_attrib_lookup saved) as (Lw & Lh & Lx & Ly & _).
  unfold attrib_int in Ew, Eh, Ex, Ey.
  rewrite (Hattr "w") in Ew by (cbn; auto).
  rewrite (Hattr "h") in Eh by (cbn; auto).
  rewrite (Hattr "xres") in Ex by (cbn; auto 6).
  rewrite (Hattr "yres") in Ey by (cbn; auto 6).
  rewrite Lw in Ew. rewrite Lh in Eh. rewrite Lx in Ex. rewrite Ly in Ey.
  fold box in Ew, Eh. rewrite Hw in Ew. rewrite Hh in Eh.
  injection Ew as <-. injection Eh as <-.
  split; [|exact Hf].
  unfold get_resolution. rewrite Rx, Ry.
  destruct (_xres (model saved)) as [vx|] eqn:Sx;
    destruct (_yres (model saved)) as [vy|] eqn:Sy; cbn in Ex, Ey |- *.
  - destruct (Hx vx eq_refl) as [Px Ix]. destruct (Hy vy eq_refl) as [Py Iy].
    destruct (Z.eqb_spec vx 0) as [->|Nx]; cbn in Ex, Ey |- *.
    + injection Ex as <-. injection Ey as <-. reflexivity.
    + destruct (Z.eqb_spec vy 0) as [->|Ny]; cbn in Ex, Ey |- *.
      * injection Ex as <-. injection Ey as <-. reflexivity.
      * rewrite Ix in Ex. rewrite Iy in Ey.
        injection Ex as <-. injection Ey as <-.
        destruct (Z.eqb_spec (Z.max 0 vx) 0); [lia|].
        destruct (Z.eqb_spec (Z.max 0 vy) 0); [lia|]. cbn.
        destruct (Z.eqb_spec (Z.max 0 vx) 0); [lia|].
        destruct (Z.eqb_spec (Z.max 0 vy) 0); [lia|]. cbn. lia.
  - rewrite andb_false_r in Ex, Ey.
    injection Ex as <-. injection Ey as <-.
    destruct (vx =? 0); reflexivity.
  - injection Ex as <-. injection Ey as <-. reflexivity.
  - injection Ex as <-. injection Ey as <-. reflexivity.
Qed.

Lemma saved_resolution_and_size_survive_load_witness :
  let d' := snd (@load_ora sample_collaborators sample_fs "framed.ora"
                           sample_fresh) in
  get_resolution sample_framed = 300
  /\ get_resolution d' = 300
  /\ get_frame sample_framed = Rect.mk 10 10 100 80
  /\ get_frame d' = Rect.mk 0 0 100 80.
Proof.
  intros d'.
  assert (Hload : @load_ora sample_collaborators sample_fs "framed.ora"
                            sample_fresh = (Ok tt, d'))
    by (vm_compute; reflexivity).
  assert (Hattr :
            forall key, In key ["w"; "h"; "xres"; "yres"] ->
              attrib_of (Sample.image_elem
                           [("w", "100"); ("h", "80"); ("xres", "300");
                            ("yres", "150")]
                           [Sample.layer_elem "0" "0" "64" "64"]) !! key
              = @save_ora_image_attrib sample_more_collaborators
                                       sample_framed !! key).
  { intros key Hin. cbn in Hin.
    destruct Hin as [<-|[<-|[<-|[<-|[]]]]]; vm_compute; reflexivity. }
  assert (Hx : forall v, _xres (model sample_framed) = Some v ->
                 0 <= v /\ @int_of_str sample_collaborators
                             (@str_of_int sample_more_collaborators v)
                           = Some v).
  { intros v E. injection E as <-. split; [lia|vm_compute; reflexivity]. }
  assert (Hy : forall v, _yres (model sample_framed) = Some v ->
                 0 <= v /\ @int_of_str sample_collaborators
                             (@str_of_int sample_more_collaborators v)
                           = Some v).
  { intros v E. injection E as <-. split; [lia|vm_compute; reflexivity]. }
  destruct (@saved_resolution_and_size_survive_load
              sample_collaborators sample_more_collaborators
              sample_fs "framed.ora" sample_framed sample_fresh d' _
              Hload eq_refl Hattr eq_refl eq_refl Hx Hy) as [Hres Hframe].
  split; [reflexivity|]. split; [rewrite Hres; reflexivity|].
  split; [reflexivity|exact Hframe].
Defined.
